(** * Pivot chart plugin: the props transform and the render effect

    A shallow embedding of [transformProps] (the reshaping and the
    aggregation of query rows into total records) and of the effect of
    [SupersetPluginChartLiquid] that mounts the pivot widget.

    Modelling choices.
    - JavaScript numbers are idealised as integers [Z]: [+] adds them
      exactly and they print as plain decimal numerals.  The program
      adds doubles and prints them as doubles, so the model agrees with
      it on integers up to [2^53] in absolute value whose sums stay in
      that range; statements about the value of a sum or about the
      numeral of a number carry this as a hypothesis ([exact_group],
      [exact_rows], [safe_number]).  [VNaN] stands for the one
      non-finite number the operators used here can produce.
    - An object is the list of its own properties in creation order;
      [Object.keys] lists the array-index keys first, in ascending order,
      and then the other keys in creation order.
    - An object has no prototype here: a name of [inherited_name]
      ([constructor], [toString], [__proto__], ...) reads as undefined
      when it is not an own property and is stored like any other, where
      the program reads the member of [Object.prototype] and stores
      nothing under [__proto__].  Statements about the entry or the
      record of a group key carry the hypothesis that the key is no such
      name. *)

From Stdlib Require Import ZArith NArith List String Ascii Bool Lia.
From Stdlib Require Import Permutation DecimalString.
Import ListNotations.

Local Open Scope string_scope.
Local Open Scope list_scope.

(** ** JavaScript values, operators and objects *)

Module JS.

Inductive value : Type :=
| VUndef
| VNull
| VBool (b : bool)
| VNum (z : Z)
| VNaN
| VStr (s : string).

Definition value_eqb (a b : value) : bool :=
  match a, b with
  | VUndef, VUndef | VNull, VNull | VNaN, VNaN => true
  | VBool x, VBool y => Bool.eqb x y
  | VNum x, VNum y => Z.eqb x y
  | VStr x, VStr y => String.eqb x y
  | _, _ => false
  end.

(** [ToBoolean]: the falsy values are undefined, null, false, 0, NaN
    and the empty string. *)
Definition truthy (v : value) : bool :=
  match v with
  | VUndef | VNull | VNaN => false
  | VBool b => b
  | VNum z => negb (Z.eqb z 0)
  | VStr s => negb (String.eqb s "")
  end.

Definition string_of_Z (z : Z) : string :=
  NilZero.string_of_int (Z.to_int z).

Definition ToString (v : value) : string :=
  match v with
  | VUndef => "undefined"
  | VNull => "null"
  | VBool true => "true"
  | VBool false => "false"
  | VNum z => string_of_Z z
  | VNaN => "NaN"
  | VStr s => s
  end.

(** [ToNumber] on the operands of [+] that are not strings; [None] is NaN. *)
Definition num_operand (v : value) : option Z :=
  match v with
  | VNull => Some 0%Z
  | VBool b => Some (if b then 1%Z else 0%Z)
  | VNum z => Some z
  | VUndef | VNaN | VStr _ => None
  end.

(** [a || b] *)
Definition js_or (a b : value) : value := if truthy a then a else b.

(** [a + b]: concatenation as soon as one operand is a string, numeric
    addition otherwise. *)
Definition js_add (a b : value) : value :=
  match a, b with
  | VStr _, _ | _, VStr _ => VStr (ToString a ++ ToString b)
  | _, _ =>
      match num_operand a, num_operand b with
      | Some x, Some y => VNum (x + y)
      | _, _ => VNaN
      end
  end.

(** Objects: own properties in creation order. *)
Definition obj (A : Type) : Type := list (string * A).

Fixpoint lookup {A : Type} (o : obj A) (k : string) : option A :=
  match o with
  | [] => None
  | (k', v) :: r => if String.eqb k' k then Some v else lookup r k
  end.

(** [o[k] = v]: an existing property keeps its position. *)
Fixpoint set {A : Type} (o : obj A) (k : string) (v : A) : obj A :=
  match o with
  | [] => [(k, v)]
  | (k', v') :: r =>
      if String.eqb k' k then (k', v) :: r else (k', v') :: set r k v
  end.

(** [o[k]] on an object holding values: a missing property reads as
    undefined. *)
Definition get (o : obj value) (k : string) : value :=
  match lookup o k with
  | Some v => v
  | None => VUndef
  end.

(** The names a plain object inherits from [Object.prototype]; the
    model does not follow the program on them. *)
Definition inherited_name (k : string) : bool :=
  existsb (String.eqb k)
    ["constructor"; "__defineGetter__"; "__defineSetter__";
     "hasOwnProperty"; "__lookupGetter__"; "__lookupSetter__";
     "isPrototypeOf"; "propertyIsEnumerable"; "toString"; "valueOf";
     "__proto__"; "toLocaleString"].

(** Array indices: canonical decimal numerals below [2^32 - 1]. *)
Definition digit_of (c : ascii) : option N :=
  let n := N_of_ascii c in
  if (N.leb 48 n && N.leb n 57)%bool then Some (n - 48)%N else None.

Fixpoint parse_digits (s : string) (acc : N) : option N :=
  match s with
  | EmptyString => Some acc
  | String c r =>
      match digit_of c with
      | Some d => parse_digits r (acc * 10 + d)%N
      | None => None
      end
  end.

Definition array_index (s : string) : option N :=
  match s with
  | EmptyString => None
  | String c r =>
      if Ascii.eqb c "0"
      then (if String.eqb r "" then Some 0%N else None)
      else match parse_digits s 0 with
           | Some n => if N.ltb n 4294967295 then Some n else None
           | None => None
           end
  end.

Fixpoint insert_index (x : N * string) (l : list (N * string))
  : list (N * string) :=
  match l with
  | [] => [x]
  | y :: r => if N.leb (fst x) (fst y) then x :: l else y :: insert_index x r
  end.

Definition indexed_keys (ks : list string) : list (N * string) :=
  flat_map (fun k => match array_index k with
                     | Some n => [(n, k)]
                     | None => []
                     end) ks.

Definition is_plain_key (k : string) : bool :=
  match array_index k with
  | Some _ => false
  | None => true
  end.

(** The order of [Object.keys] over own property names given in creation
    order. *)
Definition own_keys (ks : list string) : list string :=
  map snd (fold_right insert_index [] (indexed_keys ks))
  ++ filter is_plain_key ks.

Definition keys {A : Type} (o : obj A) : list string :=
  own_keys (map fst o).

(** [Array.prototype.join]: undefined and null elements print as the
    empty string. *)
Definition join_elem (v : value) : string :=
  match v with
  | VUndef | VNull => ""
  | _ => ToString v
  end.

Fixpoint join_strings (sep : string) (l : list string) : string :=
  match l with
  | [] => ""
  | [x] => x
  | x :: r => x ++ sep ++ join_strings sep r
  end.

Definition join (sep : string) (l : list value) : string :=
  join_strings sep (map join_elem l).

(** [String.prototype.split] with a separator of one character. *)
Fixpoint split (c : ascii) (s : string) : list string :=
  match s with
  | EmptyString => [""]
  | String a r =>
      if Ascii.eqb a c then "" :: split c r
      else match split c r with
           | [] => [String a ""]
           | h :: t => String a h :: t
           end
  end.

(** [arr[i]]: undefined past the end. *)
Definition elem_at (l : list string) (i : nat) : value :=
  match nth_error l i with
  | Some s => VStr s
  | None => VUndef
  end.

End JS.

Import JS.

(** ** The collaborators of [@superset-ui/core]

    The time formatters, the date constructor and the two constants the
    transform reads are taken as parameters. *)

Record CoreLib : Type := {
  RawFormData : Type;
  Date : Type;
  (** [extractTimegrain(rawFormData)] *)
  extractTimegrain : RawFormData -> option string;
  (** [smartDateFormatter.id] *)
  smartDateFormatter_id : string;
  (** [TimeFormats.DATABASE_DATETIME] *)
  DATABASE_DATETIME : string;
  (** [new Date(v)] *)
  new_Date : value -> Date;
  (** [getTimeFormatterForGranularity(g)(d)] *)
  formatGranularity : string -> Date -> string;
  (** [getTimeFormatter(f)(d)] *)
  formatTime : string -> Date -> string;
  (** [String(d)] *)
  Date_toString : Date -> string
}.

(** ** transformProps *)

Module Transform.

Inductive GenericDataType : Type := NUMERIC | STRING | TEMPORAL | BOOLEAN.

(** The three ways a formatter is obtained in the source. *)
Inductive DateFormatter : Type :=
| GranularityFormatter (granularity : string)
| TimeFormatter (format : string)
| StringFormatter.

Inductive Metric : Type :=
| SavedMetric (name : string)
| AdhocMetric (label : string).

(** [formData.metrics] is an array of metrics or a single value. *)
Inductive Metrics : Type :=
| MetricArray (l : list Metric)
| MetricScalar (m : Metric).

(** An element of [formattedMetrics]: a label, or the metric object
    itself. *)
Inductive MetricValue : Type :=
| MetricLabel (label : string)
| MetricObject (m : Metric).

Record FormData : Type := {
  groupbyRows : list string;
  groupbyColumns : list string;
  metrics : Metrics;
  dateFormat : option string;
  rowTotals : bool;
  rowSubTotals : bool;
  colTotals : bool;
  colSubTotals : bool;
  rowTotalsRename : string;
  colTotalsRename : string;
  transposePivot : bool
}.

Record QueryData : Type := {
  colnames : list string;
  coltypes : list GenericDataType;
  data : list (obj value)
}.

Record ChartProps (L : CoreLib) : Type := {
  width : Z;
  height : Z;
  formData : FormData;
  rawFormData : RawFormData L;
  queriesData0 : QueryData;
  verboseMap : obj string
}.

Arguments width {L}.
Arguments height {L}.
Arguments formData {L}.
Arguments rawFormData {L}.
Arguments queriesData0 {L}.
Arguments verboseMap {L}.

Record Fields : Type := {
  rows : list string;
  columns : list string;
  values : list MetricValue;
  valueInCols : bool
}.

Record Props : Type := {
  p_width : Z;
  p_height : Z;
  p_data : list (obj value);
  p_fields : Fields;
  p_meta : list (string * string);
  p_groupbyRows : list string;
  p_groupbyColumns : list string;
  p_rowTotals : bool;
  p_rowSubTotals : bool;
  p_colTotals : bool;
  p_colSubTotals : bool;
  p_totalData : list (obj value);
  p_rowTotalsRename : string;
  p_colTotalsRename : string
}.

(** A string used in a condition: undefined and the empty string are
    falsy. *)
Definition truthy_string (s : option string) : bool :=
  match s with
  | Some x => negb (String.eqb x "")
  | None => false
  end.

(** The labels of an array of metrics; a value that is not an array is
    wrapped as it is, an ad-hoc metric staying the object it is. *)
Definition formattedMetrics (m : Metrics) : list MetricValue :=
  match m with
  | MetricArray l =>
      map (fun metric => match metric with
                         | SavedMetric name => MetricLabel name
                         | AdhocMetric label => MetricLabel label
                         end) l
  | MetricScalar (SavedMetric name) => [MetricLabel name]
  | MetricScalar (AdhocMetric label) => [MetricObject (AdhocMetric label)]
  end.

(** The property name an element of [formattedMetrics] is used as in
    [item[metric]]: an object prints as [[object Object]]. *)
Definition propertyKey (metric : MetricValue) : string :=
  match metric with
  | MetricLabel label => label
  | MetricObject _ => "[object Object]"
  end.

Definition isNumeric (key : string) (data : list (obj value)) : bool :=
  forallb (fun record =>
             match get record key with
             | VNull | VUndef | VNum _ | VNaN => true
             | VBool _ | VStr _ => false
             end) data.

(** [colnames.filter((colname, index) => coltypes[index] === TEMPORAL)] *)
Fixpoint temporalFrom (coltypes : list GenericDataType) (index : nat)
  (colnames : list string) : list string :=
  match colnames with
  | [] => []
  | colname :: r =>
      match nth_error coltypes index with
      | Some TEMPORAL => colname :: temporalFrom coltypes (S index) r
      | _ => temporalFrom coltypes (S index) r
      end
  end.

Definition temporalColnames (colnames : list string)
  (coltypes : list GenericDataType) : list string :=
  temporalFrom coltypes 0 colnames.

Section WithCore.

Variable L : CoreLib.

(** The body of the reducer: the formatter chosen for one temporal
    column, if any. *)
Definition selectFormatter (dateFormat granularity : option string)
  (data : list (obj value)) (temporalColname : string)
  : option DateFormatter :=
  match dateFormat with
  | Some f =>
      if String.eqb f (smartDateFormatter_id L) then
        match granularity with
        | Some g =>
            if truthy_string granularity then Some (GranularityFormatter g)
            else if isNumeric temporalColname data
                 then Some (TimeFormatter (DATABASE_DATETIME L))
                 else Some StringFormatter
        | None =>
            if isNumeric temporalColname data
            then Some (TimeFormatter (DATABASE_DATETIME L))
            else Some StringFormatter
        end
      else if truthy_string dateFormat then Some (TimeFormatter f)
      else None
  | None => None
  end.

Definition dateFormatters (dateFormat granularity : option string)
  (colnames : list string) (coltypes : list GenericDataType)
  (data : list (obj value)) : obj DateFormatter :=
  fold_left
    (fun acc temporalColname =>
       match selectFormatter dateFormat granularity data temporalColname with
       | Some formatter => set acc temporalColname formatter
       | None => acc
       end)
    (temporalColnames colnames coltypes) [].

(** [formatter(d)] *)
Definition callFormatter (formatter : DateFormatter) (d : Date L) : string :=
  match formatter with
  | GranularityFormatter g => formatGranularity L g d
  | TimeFormatter f => formatTime L f d
  | StringFormatter => Date_toString L d
  end.

Definition transformItem (formatters : obj DateFormatter) (item : obj value)
  : obj value :=
  let temporalColumns := keys formatters in
  let formatted :=
    fold_left
      (fun transformedItem temporalColname =>
         match lookup formatters temporalColname with
         | Some formatter =>
             set transformedItem temporalColname
               (VStr (callFormatter formatter
                        (new_Date L (get item temporalColname))))
         | None =>
             set transformedItem temporalColname (get item temporalColname)
         end)
      temporalColumns [] in
  fold_left
    (fun transformedItem colname =>
       if negb (existsb (String.eqb colname) temporalColumns)
       then set transformedItem colname (get item colname)
       else transformedItem)
    (keys item) formatted.

Definition transformedData (formatters : obj DateFormatter)
  (data : list (obj value)) : list (obj value) :=
  map (transformItem formatters) data.

End WithCore.

(** *** Aggregation *)

(** [dims.map(d => item[d]).join('-')] *)
Definition groupKey (dims : list string) (item : obj value) : string :=
  join "-" (map (get item) dims).

(** One turn of the [forEach] that fills a totals map. *)
Definition accumulate (dims metrics : list string) (totalsMap : obj value)
  (item : obj value) : obj value :=
  let key := groupKey dims item in
  let started :=
    if negb (truthy (get totalsMap key)) then set totalsMap key (VNum 0)
    else totalsMap in
  fold_left
    (fun m metric =>
       set m key (js_add (get m key) (js_or (get item metric) (VNum 0))))
    metrics started.

Definition totalsMap (dims metrics : list string) (rowsIn : list (obj value))
  : obj value :=
  fold_left (accumulate dims metrics) rowsIn [].

(** The record emitted for one key of a totals map. *)
Definition totalsItem (dims metrics : list string) (m : obj value)
  (key : string) : obj value :=
  let withDims :=
    fold_left
      (fun o di => set o (fst di) (elem_at (split "-" key) (snd di)))
      (combine dims (seq 0 (List.length dims))) [] in
  fold_left (fun o metric => set o metric (get m key)) metrics withDims.

Definition totalsData (dims metrics : list string) (m : obj value)
  : list (obj value) :=
  map (totalsItem dims metrics m) (keys m).

Definition rowTotalsMap (groupbyRows metrics : list string)
  (transformed : list (obj value)) : obj value :=
  totalsMap groupbyRows metrics transformed.

Definition rowTotalsData (groupbyRows metrics : list string)
  (transformed : list (obj value)) : list (obj value) :=
  totalsData groupbyRows metrics
    (rowTotalsMap groupbyRows metrics transformed).

Definition colTotalsMap (groupbyColumns metrics : list string)
  (transformed : list (obj value)) : obj value :=
  totalsMap groupbyColumns metrics transformed.

Definition colTotalsData (groupbyColumns metrics : list string)
  (transformed : list (obj value)) : list (obj value) :=
  totalsData groupbyColumns metrics
    (colTotalsMap groupbyColumns metrics transformed).

Definition sumOfRowTotals (metrics : list string)
  (rowTotals : list (obj value)) : obj value :=
  fold_left
    (fun sum item =>
       fold_left
         (fun s metric =>
            set s metric (js_add (js_or (get s metric) (VNum 0))
                            (get item metric)))
         metrics sum)
    rowTotals [].

Definition totalData (groupbyRows groupbyColumns metrics : list string)
  (transformed : list (obj value)) : list (obj value) :=
  let rowTotals := rowTotalsData groupbyRows metrics transformed in
  let colTotals := colTotalsData groupbyColumns metrics transformed in
  rowTotals ++ colTotals ++ [sumOfRowTotals metrics rowTotals].

(** [Object.entries(datasource.verboseMap).map(...)] *)
Definition metaOf (verbose : obj string) : list (string * string) :=
  flat_map (fun field => match lookup verbose field with
                         | Some name => [(field, name)]
                         | None => []
                         end) (keys verbose).

Definition transformProps (L : CoreLib) (chartProps : ChartProps L) : Props :=
  let fd := formData chartProps in
  let q := queriesData0 chartProps in
  let granularity := extractTimegrain L (rawFormData chartProps) in
  let metricLabels := formattedMetrics (metrics fd) in
  let rows_ := if transposePivot fd then groupbyColumns fd
               else groupbyRows fd in
  let columns_ := if transposePivot fd then groupbyRows fd
                  else groupbyColumns fd in
  let fields := {| rows := rows_; columns := columns_;
                   values := metricLabels; valueInCols := true |} in
  let formatters :=
    dateFormatters L (dateFormat fd) granularity (colnames q) (coltypes q)
      (data q) in
  let transformed := transformedData L formatters (data q) in
  {| p_width := width chartProps;
     p_height := height chartProps;
     p_data := transformed;
     p_fields := fields;
     p_meta := metaOf (verboseMap chartProps);
     p_groupbyRows := groupbyRows fd;
     p_groupbyColumns := groupbyColumns fd;
     p_rowTotals := rowTotals fd;
     p_rowSubTotals := rowSubTotals fd;
     p_colTotals := colTotals fd;
     p_colSubTotals := colSubTotals fd;
     p_totalData :=
       totalData (groupbyRows fd) (groupbyColumns fd)
         (map propertyKey metricLabels) transformed;
     p_rowTotalsRename := rowTotalsRename fd;
     p_colTotalsRename := colTotalsRename fd |}.

End Transform.

Import Transform.

(** ** The render effect of the component *)

(** The pivot widget of [@antv/s2], a black box: constructing a sheet and
    rendering it may change the children of the mount point and may
    raise. *)
Record PivotWidget : Type := {
  Node : Type;
  Sheet : Type;
  Error : Type;
  construct : list Node -> list Node * (Error + Sheet);
  render : Sheet -> list Node -> list Node * (Error + unit)
}.

Module Render.

Record TotalsAxis : Type := {
  showGrandTotals : bool;
  showSubTotals : bool;
  reverseLayout : bool;
  reverseSubLayout : bool;
  subTotalsDimensions : list string;
  label : string
}.

Record S2Options : Type := {
  o_width : Z;
  o_height : Z;
  totals_row : TotalsAxis;
  totals_col : TotalsAxis
}.

Record S2DataConfig : Type := {
  c_fields : Fields;
  c_meta : list (string * string);
  c_data : list (obj value);
  c_totalData : list (obj value)
}.

Definition s2DataConfig (props : Props) : S2DataConfig :=
  {| c_fields := p_fields props;
     c_meta := p_meta props;
     c_data := p_data props;
     c_totalData := p_totalData props |}.

Definition s2Options (props : Props) : S2Options :=
  {| o_width := p_width props;
     o_height := p_height props;
     totals_row :=
       {| showGrandTotals := p_rowTotals props;
          showSubTotals := p_rowSubTotals props;
          reverseLayout := false;
          reverseSubLayout := false;
          subTotalsDimensions := p_groupbyRows props;
          label := p_rowTotalsRename props |};
     totals_col :=
       {| showGrandTotals := p_colTotals props;
          showSubTotals := p_colSubTotals props;
          reverseLayout := false;
          reverseSubLayout := false;
          subTotalsDimensions := p_groupbyColumns props;
          label := p_colTotalsRename props |} |}.

Section WithWidget.

(** The widget, given the configuration it is constructed with. *)
Variable widget : S2DataConfig -> S2Options -> PivotWidget.

Variable props : Props.

Let W : PivotWidget := widget (s2DataConfig props) (s2Options props).

Inductive exn : Type :=
| TypeError
| Thrown (e : Error W).

Inductive call : Type := CallConstruct | CallRender.

(** What the effect can touch: the children of [containerRef.current]
    ([None] while the ref is null), the console, and two ghost fields:
    the calls made to the widget and the rejections of the promise the
    async function returns. *)
Record world : Type := {
  container : option (list (Node W));
  console : list (string * exn);
  calls : list call;
  rejections : list exn
}.

(** State and exceptions; the state survives a throw. *)
Definition M (A : Type) : Type := world -> world * (exn + A).

Definition ret {A : Type} (a : A) : M A := fun w => (w, inr a).

Definition bind {A B : Type} (m : M A) (k : A -> M B) : M B :=
  fun w => match m w with
           | (w', inr a) => k a w'
           | (w', inl e) => (w', inl e)
           end.

Definition throw {A : Type} (e : exn) : M A := fun w => (w, inl e).

Definition try_catch {A : Type} (m : M A) (handler : exn -> M A) : M A :=
  fun w => match m w with
           | (w', inr a) => (w', inr a)
           | (w', inl e) => handler e w'
           end.

Notation "x <- m ;; k" := (bind m (fun x => k))
  (at level 61, m at next level, right associativity).
Notation "m ;;; k" := (bind m (fun _ => k))
  (at level 61, right associativity).

(** [while (container.firstChild) container.removeChild(container.firstChild)];
    reading [firstChild] of null raises. *)
Fixpoint removeChildren {A : Type} (children : list A) : list A :=
  match children with
  | [] => []
  | _ :: r => removeChildren r
  end.

Definition clearContainer : M unit :=
  fun w => match container w with
           | None => (w, inl TypeError)
           | Some children =>
               ({| container := Some (removeChildren children);
                   console := console w;
                   calls := calls w;
                   rejections := rejections w |}, inr tt)
           end.

(** [new PivotSheet(containerRef.current, s2DataConfig, s2Options)] *)
Definition newPivotSheet : M (Sheet W) :=
  fun w =>
    let children := match container w with
                    | Some c => c
                    | None => []
                    end in
    let r := construct W children in
    ({| container := match container w with
                     | Some _ => Some (fst r)
                     | None => None
                     end;
        console := console w;
        calls := calls w ++ [CallConstruct];
        rejections := rejections w |},
     match snd r with
     | inl e => inl (Thrown e)
     | inr s => inr s
     end).

(** [s2.render()] *)
Definition renderSheet (s2 : Sheet W) : M unit :=
  fun w =>
    let children := match container w with
                    | Some c => c
                    | None => []
                    end in
    let r := render W s2 children in
    ({| container := match container w with
                     | Some _ => Some (fst r)
                     | None => None
                     end;
        console := console w;
        calls := calls w ++ [CallRender];
        rejections := rejections w |},
     match snd r with
     | inl e => inl (Thrown e)
     | inr u => inr u
     end).

Definition errorMessage : string :=
  "Error fetching data or rendering TableSheet:".

Definition console_error (msg : string) (error : exn) : M unit :=
  fun w => ({| container := container w;
               console := console w ++ [(msg, error)];
               calls := calls w;
               rejections := rejections w |}, inr tt).

(** The statements inside [try]. *)
Definition tryBlock : M unit :=
  clearContainer ;;;
  s2 <- newPivotSheet ;;
  renderSheet s2.

Definition fetchDataAndRenderSheet : M unit :=
  try_catch tryBlock (fun error => console_error errorMessage error).

(** Calling an async function never raises: an exception that escapes
    its body rejects the promise it returns. *)
Definition call_async (body : M unit) : M unit :=
  fun w => match body w with
           | (w', inr u) => (w', inr u)
           | (w', inl e) =>
               ({| container := container w';
                   console := console w';
                   calls := calls w';
                   rejections := rejections w' ++ [e] |}, inr tt)
           end.

(** The function the effect returns, run on teardown. *)
Definition cleanup : M unit := clearContainer.

(** The callback given to [useEffect]. *)
Definition effect : M (M unit) :=
  call_async fetchDataAndRenderSheet ;;;
  ret cleanup.

End WithWidget.

Arguments TypeError {widget props}.
Arguments Thrown {widget props} e.
Arguments container {widget props} w.
Arguments console {widget props} w.
Arguments calls {widget props} w.
Arguments rejections {widget props} w.
Arguments Build_world {widget props}.

End Render.

(** ** The control panel: formDataOverrides *)

Module ControlPanel.

(** A form value that may be missing, a single value or an array. *)
Inductive MaybeArray (A : Type) : Type :=
| Missing
| Single (a : A)
| Several (l : list A).

Arguments Missing {A}.
Arguments Single {A} a.
Arguments Several {A} l.

(** [ensureIsArray] of [@superset-ui/core]: nothing for a missing value,
    the array itself, or the single value wrapped. *)
Definition ensureIsArray {A : Type} (v : MaybeArray A) : list A :=
  match v with
  | Missing => []
  | Single a => [a]
  | Several l => l
  end.

(** [arr.includes(col)] on column names. *)
Definition includes (arr : list string) (col : string) : bool :=
  existsb (String.eqb col) arr.

(** The shared object [getStandardizedControls()] returns: the columns
    and the metrics still to be handed out. *)
Record StandardizedControls (M : Type) : Type := {
  sc_columns : list string;
  sc_metrics : M
}.

Arguments sc_columns {M}.
Arguments sc_metrics {M}.

(** The form data returned: the incoming form data spread, with
    [metrics] and [groupbyColumns] set. *)
Record Overridden (F R : Type) : Type := {
  ov_spread : F;
  ov_metrics : R;
  ov_groupbyColumns : list string
}.

Arguments ov_spread {F R}.
Arguments ov_metrics {F R}.
Arguments ov_groupbyColumns {F R}.

Section WithControls.

Variables F M R : Type.

(** [formData.groupbyRows] *)
Variable groupbyRowsOf : F -> MaybeArray string.

(** [popAllMetrics] of [@superset-ui/chart-controls], which reads and
    empties the metrics of the shared controls. *)
Variable popAllMetrics : M -> R * M.

Definition formDataOverrides (formData : F) (sc : StandardizedControls M)
  : Overridden F R * StandardizedControls M :=
  let groupbyColumns :=
    filter (fun col =>
              negb (includes (ensureIsArray (groupbyRowsOf formData)) col))
      (sc_columns sc) in
  let sc1 :=
    {| sc_columns :=
         filter (fun col => negb (includes groupbyColumns col))
           (sc_columns sc);
       sc_metrics := sc_metrics sc |} in
  let popped := popAllMetrics (sc_metrics sc1) in
  ({| ov_spread := formData;
      ov_metrics := fst popped;
      ov_groupbyColumns := groupbyColumns |},
   {| sc_columns := sc_columns sc1; sc_metrics := snd popped |}).

End WithControls.

End ControlPanel.

(** * Vocabulary of the statements and sample inputs

    Nothing below is part of the program: these are the sums, predicates
    and sample inputs the properties are stated with. *)

Import Render.

(** Assigning a list of properties one after the other. *)
Definition set_all {A : Type} (o : obj A) (l : list (string * A))
  : obj A :=
  fold_left (fun acc kv => set acc (fst kv) (snd kv)) l o.

(** Whether a character occurs in a string. *)
Fixpoint contains (c : ascii) (s : string) : bool :=
  match s with
  | EmptyString => false
  | String a r => (Ascii.eqb a c || contains c r)%bool
  end.

(** A metric value that is a number or falsy. *)
Definition numeric_or_falsy (v : value) : bool :=
  match v with
  | VNum _ | VNull | VUndef | VNaN => true
  | VBool b => negb b
  | VStr s => String.eqb s ""
  end.

(** What such a value adds to a total. *)
Definition contribution (v : value) : Z :=
  match v with
  | VNum z => z
  | _ => 0%Z
  end.

(** The sum of one metric over the rows of a group. *)
Definition metric_sum (dims : list string) (metric : string)
  (rowsIn : list (obj value)) (key : string) : Z :=
  fold_right
    (fun item acc =>
       if String.eqb (groupKey dims item) key
       then (contribution (get item metric) + acc)%Z else acc)
    0%Z rowsIn.

(** The sum of all the listed metrics over the rows of a group. *)
Definition group_sum (dims metrics : list string)
  (rowsIn : list (obj value)) (key : string) : Z :=
  fold_right (fun metric acc => (metric_sum dims metric rowsIn key + acc)%Z)
    0%Z metrics.

(** The sum of all the listed metrics in one row. *)
Definition row_sum (metrics : list string) (item : obj value) : Z :=
  fold_right (fun metric acc => (contribution (get item metric) + acc)%Z)
    0%Z metrics.

(** Whether some row joins to the key. *)
Definition in_group (dims : list string) (rowsIn : list (obj value))
  (key : string) : bool :=
  existsb (fun item => String.eqb (groupKey dims item) key) rowsIn.

(** Every metric value of every row is a number or falsy. *)
Definition numeric_metrics (metrics : list string)
  (rowsIn : list (obj value)) : Prop :=
  forall item metric,
    In item rowsIn -> In metric metrics ->
    numeric_or_falsy (get item metric) = true.

Definition numeric_map (m : obj value) : Prop :=
  forall k v, lookup m k = Some v -> exists z, v = VNum z.

Definition number_at (m : obj value) (k : string) : Z :=
  contribution (get m k).

(** The same total as [group_sum], summed row by row. *)
Definition rows_total (dims metrics : list string)
  (rowsIn : list (obj value)) (key : string) : Z :=
  fold_right
    (fun item acc =>
       if String.eqb (groupKey dims item) key
       then (row_sum metrics item + acc)%Z else acc)
    0%Z rowsIn.

(** A column is flagged temporal when one of its positions in [colnames]
    carries the temporal type. *)
Definition flagged_temporal (colnames : list string)
  (coltypes : list GenericDataType) (col : string) : Prop :=
  exists i, nth_error colnames i = Some col /\
            nth_error coltypes i = Some TEMPORAL.

Definition numeric_or_absent (v : value) : Prop :=
  v = VNull \/ v = VUndef \/ v = VNaN \/ exists z, v = VNum z.

(** The same chart with the transpose flag set to [b]. *)
Definition set_transpose (b : bool) (fd : FormData) : FormData :=
  {| groupbyRows := groupbyRows fd;
     groupbyColumns := groupbyColumns fd;
     metrics := metrics fd;
     dateFormat := dateFormat fd;
     rowTotals := rowTotals fd;
     rowSubTotals := rowSubTotals fd;
     colTotals := colTotals fd;
     colSubTotals := colSubTotals fd;
     rowTotalsRename := rowTotalsRename fd;
     colTotalsRename := colTotalsRename fd;
     transposePivot := b |}.

Definition with_transpose {L : CoreLib} (b : bool) (cp : ChartProps L)
  : ChartProps L :=
  {| width := width cp;
     height := height cp;
     formData := set_transpose b (formData cp);
     rawFormData := rawFormData cp;
     queriesData0 := queriesData0 cp;
     verboseMap := verboseMap cp |}.

(** A stand-in for the library, to run the transform on examples. *)
Definition sampleCore : CoreLib :=
  {| RawFormData := option string;
     Date := value;
     extractTimegrain := fun raw => raw;
     smartDateFormatter_id := "smart_date";
     DATABASE_DATETIME := "%Y-%m-%d %H:%M:%S";
     new_Date := fun v => v;
     formatGranularity := fun g d => (g ++ ":" ++ ToString d)%string;
     formatTime := fun f d => (f ++ ":" ++ ToString d)%string;
     Date_toString := ToString |}.

Definition sampleForm (transposed : bool) (metricNames : list string)
  : FormData :=
  {| groupbyRows := ["region"];
     groupbyColumns := ["year"];
     metrics := MetricArray (map SavedMetric metricNames);
     dateFormat := Some "smart_date";
     rowTotals := true;
     rowSubTotals := false;
     colTotals := true;
     colSubTotals := false;
     rowTotalsRename := "Total";
     colTotalsRename := "Total";
     transposePivot := transposed |}.

Definition sampleRows : list (obj value) :=
  [ [("region", VStr "A"); ("year", VStr "2023");
     ("qty", VNum 3); ("amt", VNum 10)];
    [("region", VStr "A"); ("year", VStr "2024");
     ("qty", VNum 5); ("amt", VNum 20)];
    [("region", VStr "B"); ("year", VStr "2023");
     ("qty", VNum 2); ("amt", VNum 30)] ].

Definition sampleChart (transposed : bool) (metricNames : list string)
  : ChartProps sampleCore :=
  {| width := 400;
     height := 300;
     formData := sampleForm transposed metricNames;
     rawFormData := (None : RawFormData sampleCore);
     queriesData0 :=
       {| colnames := ["region"; "year"; "qty"; "amt"];
          coltypes := [STRING; STRING; NUMERIC; NUMERIC];
          data := sampleRows |};
     verboseMap := [("qty", "Quantity")] |}.

(** A widget whose constructor mounts a canvas and whose [render]
    raises. *)
Definition failingRender (_ : S2DataConfig) (_ : S2Options) : PivotWidget :=
  {| Node := string;
     Sheet := unit;
     Error := string;
     construct := fun children => (children ++ ["canvas"], inr tt);
     render := fun _ children => (children, inl "render failed") |}.

(** A widget whose constructor raises before it mounts anything. *)
Definition failingConstruct (_ : S2DataConfig) (_ : S2Options)
  : PivotWidget :=
  {| Node := string;
     Sheet := unit;
     Error := string;
     construct := fun children => (children, inl "no canvas");
     render := fun _ children => (children, inr tt) |}.

Definition sampleProps : Props :=
  transformProps sampleCore (sampleChart false ["qty"]).

(** A world whose mount point holds the given children. *)
Definition mounted {widget props}
  (children : list (Node (widget (s2DataConfig props) (s2Options props))))
  : world widget props :=
  {| container := Some children; console := []; calls := [];
     rejections := [] |}.


Definition distinct_names {A : Type} (o : obj A) : Prop :=
  NoDup (map fst o).



Definition temporalRows : list (obj value) :=
  [ [("ts", VNum 1700000000000); ("region", VNull); ("year", VNum 2023);
     ("qty", VNum 1)];
    [("ts", VNull); ("region", VStr "B"); ("year", VNum 2024);
     ("qty", VNum 2)] ].

Definition temporalChart : ChartProps sampleCore :=
  {| width := 400;
     height := 300;
     formData := sampleForm false ["qty"];
     rawFormData := (None : RawFormData sampleCore);
     queriesData0 :=
       {| colnames := ["ts"; "region"; "year"; "qty"];
          coltypes := [TEMPORAL; STRING; NUMERIC; NUMERIC];
          data := temporalRows |};
     verboseMap := [] |}.

(** Up to this bound in absolute value every integer is a double, sums
    that stay within it are added exactly, and a number prints as its
    plain decimal numeral. *)
Definition max_exact : Z := 2 ^ 53.


(** The magnitudes of all the listed metrics in one row, summed. *)
Definition row_magnitude (metrics : list string) (item : obj value) : Z :=
  fold_right
    (fun metric acc => (Z.abs (contribution (get item metric)) + acc)%Z)
    0%Z metrics.

(** The same over the rows of a group, and over all the rows. *)
Definition group_magnitude (dims metrics : list string)
  (rowsIn : list (obj value)) (key : string) : Z :=
  fold_right
    (fun item acc =>
       if String.eqb (groupKey dims item) key
       then (row_magnitude metrics item + acc)%Z else acc)
    0%Z rowsIn.


(** Every partial sum the program forms for the group, in any order of
    the rows, stays within the exact range. *)
Definition exact_group (dims metrics : list string)
  (rowsIn : list (obj value)) (key : string) : Prop :=
  (group_magnitude dims metrics rowsIn key <= max_exact)%Z.


(** No row joins to a key that is a name inherited from
    [Object.prototype]. *)
Definition plain_groups (dims : list string) (rowsIn : list (obj value))
  : Prop :=
  forall item, In item rowsIn -> inherited_name (groupKey dims item) = false.


(** * Properties *)

(** ** Objects *)

Section ObjectFacts.

Context {A : Type}.

Lemma lookup_set_same (o : obj A) (k : string) (v : A) :
  lookup (set o k v) k = Some v.
Proof.
  induction o as [|[k' v'] r IH]; simpl.
  - now rewrite String.eqb_refl.
  - destruct (String.eqb k' k) eqn:E; simpl; rewrite E; auto.
Qed.

Lemma lookup_set_other (o : obj A) (k k' : string) (v : A) :
  k <> k' -> lookup (set o k v) k' = lookup o k'.
Proof.
  intros Hne.
  induction o as [|[k0 v0] r IH]; simpl.
  - destruct (String.eqb k k') eqn:E; auto.
    apply String.eqb_eq in E. contradiction.
  - destruct (String.eqb k0 k) eqn:E; simpl.
    + apply String.eqb_eq in E. subst k0.
      destruct (String.eqb k k') eqn:E'; auto.
      apply String.eqb_eq in E'. contradiction.
    + now rewrite IH.
Qed.

Lemma lookup_set (o : obj A) (k k' : string) (v : A) :
  lookup (set o k v) k' = if String.eqb k k' then Some v else lookup o k'.
Proof.
  destruct (String.eqb k k') eqn:E.
  - apply String.eqb_eq in E. subst. apply lookup_set_same.
  - apply String.eqb_neq in E. now apply lookup_set_other.
Qed.

Lemma lookup_app (l1 l2 : obj A) (k : string) :
  lookup (l1 ++ l2) k =
  match lookup l1 k with
  | Some v => Some v
  | None => lookup l2 k
  end.
Proof.
  induction l1 as [|[k' v'] r IH]; simpl; auto.
  destruct (String.eqb k' k); auto.
Qed.

Lemma lookup_Some_In (o : obj A) (k : string) (v : A) :
  lookup o k = Some v -> In (k, v) o.
Proof.
  induction o as [|[k' v'] r IH]; simpl; [discriminate|].
  destruct (String.eqb k' k) eqn:E.
  - apply String.eqb_eq in E. intros [= <-]. subst. now left.
  - intros H. right. auto.
Qed.

Lemma lookup_None_iff (o : obj A) (k : string) :
  lookup o k = None <-> ~ In k (map fst o).
Proof.
  induction o as [|[k' v'] r IH]; simpl.
  - tauto.
  - destruct (String.eqb k' k) eqn:E.
    + apply String.eqb_eq in E. split; [discriminate|]. intros H. tauto.
    + apply String.eqb_neq in E. rewrite IH. tauto.
Qed.

Lemma lookup_In_keys (o : obj A) (k : string) :
  In k (map fst o) <-> lookup o k <> None.
Proof.
  destruct (lookup o k) eqn:E.
  - split; [discriminate|]. intros _.
    apply lookup_Some_In in E. apply in_map_iff. now exists (k, a).
  - apply lookup_None_iff in E. tauto.
Qed.

(** The last assignment to a name wins; names that are not assigned keep
    their value. *)
Lemma lookup_set_all (l : list (string * A)) (o : obj A) (k : string) :
  lookup (set_all o l) k =
  match lookup (rev l) k with
  | Some v => Some v
  | None => lookup o k
  end.
Proof.
  revert o. induction l as [|[k' v'] r IH]; intros o; simpl; auto.
  unfold set_all in *. simpl. rewrite IH, lookup_app, lookup_set. simpl.
  destruct (lookup (rev r) k); auto.
  destruct (String.eqb k' k); auto.
Qed.

Lemma fold_set_as_set_all {B : Type} (key : B -> string) (val : B -> A)
  (l : list B) (o : obj A) :
  fold_left (fun acc b => set acc (key b) (val b)) l o
  = set_all o (map (fun b => (key b, val b)) l).
Proof.
  revert o. induction l as [|b r IH]; intros o; simpl; auto.
Qed.

Lemma fold_cond_as_filter {B : Type} (p : B -> bool)
  (f : obj A -> B -> obj A) (l : list B) (o : obj A) :
  fold_left (fun acc b => if p b then f acc b else acc) l o
  = fold_left f (filter p l) o.
Proof.
  revert o. induction l as [|b r IH]; intros o; simpl; auto.
  destruct (p b); simpl; auto.
Qed.

(** Assigning [g k] under every name [k] of a list. *)
Lemma lookup_fold_set (g : string -> A) (ks : list string) (o : obj A)
  (k : string) :
  lookup (fold_left (fun acc c => set acc c (g c)) ks o) k =
  if in_dec string_dec k ks then Some (g k) else lookup o k.
Proof.
  rewrite (fold_set_as_set_all (fun c => c) g), lookup_set_all.
  destruct (lookup (rev (map (fun b => (b, g b)) ks)) k) eqn:E.
  - apply lookup_Some_In in E. apply in_rev in E.
    apply in_map_iff in E. destruct E as (c & Hc & Hin).
    injection Hc as -> <-.
    destruct (in_dec string_dec k ks); [reflexivity | contradiction].
  - apply lookup_None_iff in E.
    destruct (in_dec string_dec k ks) as [Hin|]; [|reflexivity].
    exfalso. apply E. apply in_map_iff. exists (k, g k). split; auto.
    apply in_rev. rewrite rev_involutive.
    apply in_map_iff. now exists k.
Qed.

End ObjectFacts.


Lemma get_fold_set (g : string -> value) (ks : list string) (o : obj value)
  (k : string) :
  get (fold_left (fun acc c => set acc c (g c)) ks o) k =
  if in_dec string_dec k ks then g k else get o k.
Proof.
  unfold get. rewrite lookup_fold_set.
  now destruct (in_dec string_dec k ks).
Qed.

(** ** Object.keys lists exactly the own property names *)

Lemma In_insert_index (x y : N * string) (l : list (N * string)) :
  In y (insert_index x l) <-> y = x \/ In y l.
Proof.
  induction l as [|z r IH]; simpl.
  - intuition.
  - destruct (N.leb (fst x) (fst z)); simpl; [intuition|].
    rewrite IH. intuition.
Qed.

Lemma In_sorted_indices (y : N * string) (l : list (N * string)) :
  In y (fold_right insert_index [] l) <-> In y l.
Proof.
  induction l as [|z r IH]; simpl; [tauto|].
  rewrite In_insert_index, IH. intuition.
Qed.

Lemma In_own_keys (k : string) (ks : list string) :
  In k (own_keys ks) <-> In k ks.
Proof.
  unfold own_keys. rewrite in_app_iff, in_map_iff, filter_In.
  unfold is_plain_key, indexed_keys. split.
  - intros [((n, k') & Hk & Hin) | [Hin _]]; auto.
    simpl in Hk. subst k'.
    apply In_sorted_indices, in_flat_map in Hin.
    destruct Hin as (c & Hc & Hin).
    destruct (array_index c); simpl in Hin; [|contradiction].
    destruct Hin as [[= _ ->]|[]]. assumption.
  - intros Hin. destruct (array_index k) as [n|] eqn:E; [left | right; auto].
    exists (n, k). split; auto.
    apply In_sorted_indices, in_flat_map. exists k. split; auto.
    rewrite E. now left.
Qed.

Lemma In_keys {A : Type} (o : obj A) (k : string) :
  In k (keys o) <-> lookup o k <> None.
Proof.
  unfold keys. rewrite In_own_keys. apply lookup_In_keys.
Qed.

Lemma existsb_eqb_In (k : string) (ks : list string) :
  existsb (String.eqb k) ks = true <-> In k ks.
Proof.
  rewrite existsb_exists. split.
  - intros (x & Hin & E). apply String.eqb_eq in E. now subst.
  - intros Hin. exists k. split; auto. apply String.eqb_refl.
Qed.

(** ** Splitting a joined key *)


Lemma split_without_sep (c : ascii) (s : string) :
  contains c s = false -> split c s = [s].
Proof.
  induction s as [|a r IH]; simpl; auto.
  intros H. apply orb_false_iff in H. destruct H as [Ha Hr].
  rewrite Ha, (IH Hr). reflexivity.
Qed.

Lemma split_app_sep (c : ascii) (x r : string) :
  contains c x = false ->
  split c (x ++ String c r)%string = x :: split c r.
Proof.
  induction x as [|a x IH]; simpl.
  - intros _. now rewrite Ascii.eqb_refl.
  - intros H. apply orb_false_iff in H. destruct H as [Ha Hx].
    rewrite Ha, (IH Hx). reflexivity.
Qed.

Lemma split_join (c : ascii) (l : list string) :
  l <> [] ->
  Forall (fun s => contains c s = false) l ->
  split c (join_strings (String c "") l) = l.
Proof.
  induction l as [|x r IH]; [congruence|].
  intros _ HF. inversion HF as [|? ? Hx Hr]; subst.
  destruct r as [|y r'].
  - simpl. now apply split_without_sep.
  - change (join_strings (String c "") (x :: y :: r'))
      with (x ++ String c (join_strings (String c "") (y :: r')))%string.
    rewrite split_app_sep by assumption.
    rewrite IH; [reflexivity | discriminate | assumption].
Qed.



(** ** What a totals map holds *)

Lemma js_add_contribution (z0 : Z) (v : value) :
  numeric_or_falsy v = true ->
  js_add (VNum z0) (js_or v (VNum 0)) = VNum (z0 + contribution v).
Proof.
  destruct v as [| |b|z| |s]; simpl; intros H; unfold js_or; simpl;
    rewrite ?Z.add_0_r; auto.
  - destruct b; [discriminate|]. simpl. now rewrite Z.add_0_r.
  - destruct (Z.eqb z 0) eqn:E; simpl; auto.
    apply Z.eqb_eq in E. now subst.
  - rewrite H. simpl. now rewrite Z.add_0_r.
Qed.

Lemma metrics_fold_other (key : string) (item : obj value)
  (metrics : list string) (started : obj value) (k : string) :
  key <> k ->
  lookup (fold_left
            (fun m metric =>
               set m key (js_add (get m key)
                            (js_or (get item metric) (VNum 0))))
            metrics started) k
  = lookup started k.
Proof.
  intros Hne. revert started.
  induction metrics as [|metric r IH]; intros started; simpl; auto.
  rewrite IH. now apply lookup_set_other.
Qed.

Lemma metrics_fold_key (key : string) (item : obj value)
  (metrics : list string) (started : obj value) (z0 : Z) :
  (forall metric, In metric metrics ->
                  numeric_or_falsy (get item metric) = true) ->
  lookup started key = Some (VNum z0) ->
  lookup (fold_left
            (fun m metric =>
               set m key (js_add (get m key)
                            (js_or (get item metric) (VNum 0))))
            metrics started) key
  = Some (VNum (z0 + row_sum metrics item)).
Proof.
  revert started z0.
  induction metrics as [|metric r IH]; intros started z0 Hnum Hk; simpl.
  - now rewrite Z.add_0_r.
  - rewrite (IH _ (z0 + contribution (get item metric))%Z).
    + now rewrite Z.add_assoc.
    + intros m Hm. apply Hnum. now right.
    + rewrite lookup_set_same. unfold get at 1. rewrite Hk.
      rewrite js_add_contribution; auto. apply Hnum. now left.
Qed.

Lemma metrics_fold_defined (key : string) (item : obj value)
  (metrics : list string) (started : obj value) :
  lookup started key <> None ->
  lookup (fold_left
            (fun m metric =>
               set m key (js_add (get m key)
                            (js_or (get item metric) (VNum 0))))
            metrics started) key <> None.
Proof.
  revert started.
  induction metrics as [|metric r IH]; intros started H; simpl; auto.
  apply IH. rewrite lookup_set_same. discriminate.
Qed.

Lemma started_number (m : obj value) (key : string) :
  numeric_map m ->
  lookup (if negb (truthy (get m key)) then set m key (VNum 0) else m) key
  = Some (VNum (number_at m key)).
Proof.
  intros Hm. unfold number_at, get.
  destruct (lookup m key) as [v|] eqn:E.
  - destruct (Hm _ _ E) as [z ->]. simpl.
    destruct (Z.eqb z 0) eqn:Ez; simpl.
    + apply Z.eqb_eq in Ez. subst. apply lookup_set_same.
    + exact E.
  - simpl. apply lookup_set_same.
Qed.

Lemma started_other (m : obj value) (key k : string) :
  key <> k ->
  lookup (if negb (truthy (get m key)) then set m key (VNum 0) else m) k
  = lookup m k.
Proof.
  intros Hne. destruct (negb (truthy (get m key))); auto.
  now apply lookup_set_other.
Qed.

Lemma started_defined (m : obj value) (key : string) :
  lookup (if negb (truthy (get m key)) then set m key (VNum 0) else m) key
  <> None.
Proof.
  destruct (negb (truthy (get m key))) eqn:E.
  - rewrite lookup_set_same. discriminate.
  - unfold get in E. destruct (lookup m key); [discriminate|].
    simpl in E. discriminate.
Qed.

(** One row adds the sum of its metrics to the entry of its group and
    leaves the other entries alone. *)
Lemma accumulate_lookup (dims metrics : list string) (m item : obj value)
  (k : string) :
  numeric_map m ->
  (forall metric, In metric metrics ->
                  numeric_or_falsy (get item metric) = true) ->
  lookup (accumulate dims metrics m item) k =
  if String.eqb (groupKey dims item) k
  then Some (VNum (number_at m k + row_sum metrics item))
  else lookup m k.
Proof.
  intros Hm Hnum. unfold accumulate.
  destruct (String.eqb (groupKey dims item) k) eqn:E.
  - apply String.eqb_eq in E. subst k.
    apply metrics_fold_key; auto. now apply started_number.
  - apply String.eqb_neq in E.
    rewrite metrics_fold_other by assumption. now apply started_other.
Qed.

Lemma accumulate_numeric (dims metrics : list string) (m item : obj value) :
  numeric_map m ->
  (forall metric, In metric metrics ->
                  numeric_or_falsy (get item metric) = true) ->
  numeric_map (accumulate dims metrics m item).
Proof.
  intros Hm Hnum k v. rewrite accumulate_lookup by assumption.
  destruct (String.eqb (groupKey dims item) k).
  - intros [= <-]. eauto.
  - apply Hm.
Qed.

Lemma accumulate_domain (dims metrics : list string) (m item : obj value)
  (k : string) :
  lookup (accumulate dims metrics m item) k <> None <->
  groupKey dims item = k \/ lookup m k <> None.
Proof.
  unfold accumulate.
  destruct (string_dec (groupKey dims item) k) as [<-|Hne].
  - split; [now left|]. intros _.
    apply metrics_fold_defined, started_defined.
  - rewrite metrics_fold_other, started_other by assumption. tauto.
Qed.

Lemma metric_sum_cons (dims : list string) (metric : string)
  (item : obj value) (rowsIn : list (obj value)) (key : string) :
  metric_sum dims metric (item :: rowsIn) key =
  if String.eqb (groupKey dims item) key
  then (contribution (get item metric) + metric_sum dims metric rowsIn key)%Z
  else metric_sum dims metric rowsIn key.
Proof. reflexivity. Qed.

Lemma group_sum_cons_in (dims metrics : list string) (item : obj value)
  (rowsIn : list (obj value)) (key : string) :
  groupKey dims item = key ->
  group_sum dims metrics (item :: rowsIn) key
  = (row_sum metrics item + group_sum dims metrics rowsIn key)%Z.
Proof.
  intros Hk. unfold group_sum.
  induction metrics as [|metric r IH]; cbn [fold_right]; auto.
  rewrite IH, metric_sum_cons. apply String.eqb_eq in Hk. rewrite Hk.
  unfold row_sum. cbn [fold_right].
  fold (row_sum r item). fold (group_sum dims r rowsIn key). lia.
Qed.

Lemma group_sum_cons_out (dims metrics : list string) (item : obj value)
  (rowsIn : list (obj value)) (key : string) :
  groupKey dims item <> key ->
  group_sum dims metrics (item :: rowsIn) key
  = group_sum dims metrics rowsIn key.
Proof.
  intros Hk. unfold group_sum.
  induction metrics as [|metric r IH]; cbn [fold_right]; auto.
  rewrite IH, metric_sum_cons. apply String.eqb_neq in Hk. now rewrite Hk.
Qed.

Lemma group_sum_nil (dims metrics : list string) (key : string) :
  group_sum dims metrics [] key = 0%Z.
Proof.
  unfold group_sum. induction metrics as [|metric r IH]; simpl; auto.
Qed.

(** Summing row by row or metric by metric gives the same total. *)
Lemma rows_total_group_sum (dims metrics : list string)
  (rowsIn : list (obj value)) (key : string) :
  rows_total dims metrics rowsIn key = group_sum dims metrics rowsIn key.
Proof.
  induction rowsIn as [|item r IH]; simpl.
  - now rewrite group_sum_nil.
  - destruct (String.eqb (groupKey dims item) key) eqn:E.
    + apply String.eqb_eq in E. rewrite group_sum_cons_in by assumption.
      now rewrite IH.
    + apply String.eqb_neq in E. now rewrite group_sum_cons_out.
Qed.

Lemma rows_total_outside (dims metrics : list string)
  (rowsIn : list (obj value)) (key : string) :
  in_group dims rowsIn key = false ->
  rows_total dims metrics rowsIn key = 0%Z.
Proof.
  induction rowsIn as [|item r IH]; simpl; auto.
  intros H. apply orb_false_iff in H. destruct H as [-> Hr]. auto.
Qed.

Lemma totals_fold_lookup (dims metrics : list string)
  (rowsIn : list (obj value)) (m : obj value) (k : string) :
  numeric_map m ->
  numeric_metrics metrics rowsIn ->
  lookup (fold_left (accumulate dims metrics) rowsIn m) k =
  if in_group dims rowsIn k
  then Some (VNum (number_at m k + rows_total dims metrics rowsIn k))
  else lookup m k.
Proof.
  revert m. induction rowsIn as [|item r IH]; intros m Hm Hnum; simpl; auto.
  assert (Hitem : forall metric, In metric metrics ->
                                 numeric_or_falsy (get item metric) = true).
  { intros metric Hin. apply Hnum; simpl; auto. }
  assert (Hr : numeric_metrics metrics r).
  { intros i metric Hi Hin. apply Hnum; simpl; auto. }
  rewrite IH by (auto using accumulate_numeric).
  unfold number_at, get. rewrite accumulate_lookup by assumption.
  destruct (String.eqb (groupKey dims item) k) eqn:E; simpl.
  - fold (get m k). fold (number_at m k).
    destruct (in_group dims r k) eqn:G; f_equal; f_equal; [lia|].
    rewrite (rows_total_outside _ _ _ _ G). lia.
  - reflexivity.
Qed.

Lemma totals_fold_domain (dims metrics : list string)
  (rowsIn : list (obj value)) (m : obj value) (k : string) :
  lookup (fold_left (accumulate dims metrics) rowsIn m) k <> None <->
  in_group dims rowsIn k = true \/ lookup m k <> None.
Proof.
  revert m. induction rowsIn as [|item r IH]; intros m; simpl.
  - intuition discriminate.
  - rewrite IH, accumulate_domain, orb_true_iff, String.eqb_eq. tauto.
Qed.

(** The entry of a group in a totals map: the sum, over the rows of the
    group, of all the listed metrics together. *)
Lemma totalsMap_lookup (dims metrics : list string)
  (rowsIn : list (obj value)) (k : string) :
  numeric_metrics metrics rowsIn ->
  lookup (totalsMap dims metrics rowsIn) k =
  if in_group dims rowsIn k
  then Some (VNum (group_sum dims metrics rowsIn k))
  else None.
Proof.
  intros Hnum. unfold totalsMap.
  rewrite totals_fold_lookup; auto.
  - now rewrite rows_total_group_sum.
  - intros k' v. discriminate.
Qed.

Lemma totalsMap_domain (dims metrics : list string)
  (rowsIn : list (obj value)) (k : string) :
  In k (keys (totalsMap dims metrics rowsIn)) <->
  in_group dims rowsIn k = true.
Proof.
  rewrite In_keys. unfold totalsMap. rewrite totals_fold_domain. simpl.
  intuition congruence.
Qed.

Lemma in_group_member (dims : list string) (rowsIn : list (obj value))
  (item : obj value) :
  In item rowsIn -> in_group dims rowsIn (groupKey dims item) = true.
Proof.
  intros Hin. apply existsb_exists. exists item. split; auto.
  apply String.eqb_refl.
Qed.

(** ** The fields of a total record *)

Lemma map_fst_combine_seq {A : Type} (l : list A) (s : nat) :
  map fst (combine l (seq s (List.length l))) = l.
Proof.
  revert s. induction l as [|x r IH]; intros s; simpl; auto.
  now rewrite IH.
Qed.

Lemma In_combine_seq {A : Type} (l : list A) (s i : nat) (x : A) :
  In (x, i) (combine l (seq s (List.length l))) ->
  (s <= i)%nat /\ nth_error l (i - s) = Some x.
Proof.
  revert s. induction l as [|y r IH]; intros s; simpl; [tauto|].
  intros [[= -> ->]|H].
  - rewrite Nat.sub_diag. auto.
  - apply IH in H. destruct H as [Hle Hn].
    split; [lia|]. replace (i - s)%nat with (S (i - S s)) by lia. exact Hn.
Qed.

Lemma totalsItem_metric (dims metrics : list string) (m : obj value)
  (key metric : string) :
  In metric metrics ->
  get (totalsItem dims metrics m key) metric = get m key.
Proof.
  intros Hin. unfold totalsItem.
  rewrite (get_fold_set (fun _ => get m key)).
  destruct (in_dec string_dec metric metrics); [reflexivity | contradiction].
Qed.

Lemma totalsItem_dim (dims metrics : list string) (m : obj value)
  (key r : string) :
  In r dims -> ~ In r metrics ->
  exists i, nth_error dims i = Some r /\
            get (totalsItem dims metrics m key) r
            = elem_at (split "-" key) i.
Proof.
  intros Hd Hm. unfold totalsItem.
  rewrite (get_fold_set (fun _ => get m key)).
  destruct (in_dec string_dec r metrics); [contradiction|].
  unfold get.
  rewrite (fold_set_as_set_all fst
             (fun di => elem_at (split "-" key) (snd di))).
  rewrite lookup_set_all. simpl.
  set (l := map _ (combine dims (seq 0 (List.length dims)))).
  destruct (lookup (rev l) r) as [v|] eqn:E.
  - apply lookup_Some_In, in_rev in E. subst l.
    apply in_map_iff in E. destruct E as ((d, i) & Hdi & Hin).
    simpl in Hdi. injection Hdi as -> <-.
    apply In_combine_seq in Hin. destruct Hin as [_ Hn].
    rewrite Nat.sub_0_r in Hn. now exists i.
  - exfalso. apply lookup_None_iff in E. apply E.
    rewrite map_rev. apply in_rev. rewrite rev_involutive.
    subst l. rewrite map_map. simpl. now rewrite map_fst_combine_seq.
Qed.



Lemma in_group_witness (dims : list string) (rowsIn : list (obj value))
  (key : string) :
  in_group dims rowsIn key = true ->
  exists item, In item rowsIn /\ groupKey dims item = key.
Proof.
  intros H. apply existsb_exists in H. destruct H as (item & Hin & E).
  apply String.eqb_eq in E. eauto.
Qed.


Lemma totalsData_member (dims metrics : list string)
  (rowsIn : list (obj value)) (item : obj value) :
  In item rowsIn ->
  In (totalsItem dims metrics (totalsMap dims metrics rowsIn)
        (groupKey dims item))
     (totalsData dims metrics (totalsMap dims metrics rowsIn)).
Proof.
  intros Hin. unfold totalsData. apply in_map.
  apply totalsMap_domain. now apply in_group_member.
Qed.

Lemma split_groupKey (dims : list string) (item : obj value) :
  dims <> [] ->
  (forall d, In d dims -> contains "-" (join_elem (get item d)) = false) ->
  split "-" (groupKey dims item)
  = map (fun d => join_elem (get item d)) dims.
Proof.
  intros Hne Hsep. unfold groupKey, join. rewrite map_map.
  apply split_join.
  - destruct dims; [congruence | discriminate].
  - apply Forall_forall. intros s Hs.
    apply in_map_iff in Hs. destruct Hs as (d & <- & Hin). auto.
Qed.

Lemma totalsItem_roundtrip (dims metrics : list string) (m item : obj value)
  (r : string) :
  (forall d, In d dims -> contains "-" (join_elem (get item d)) = false) ->
  In r dims -> ~ In r metrics ->
  get (totalsItem dims metrics m (groupKey dims item)) r
  = VStr (join_elem (get item r)).
Proof.
  intros Hsep Hd Hm.
  destruct (totalsItem_dim dims metrics m (groupKey dims item) r Hd Hm)
    as (i & Hi & ->).
  rewrite split_groupKey; auto.
  - unfold elem_at.
    now rewrite (map_nth_error (fun x => join_elem (get item x)) _ _ Hi).
  - destruct dims; [contradiction | discriminate].
Qed.


Lemma split_fragments_without_sep (c : ascii) (s frag : string) :
  In frag (split c s) -> contains c frag = false.
Proof.
  revert frag. induction s as [|a r IH]; simpl; intros frag.
  - intros [<-|[]]. reflexivity.
  - destruct (Ascii.eqb a c) eqn:E.
    + intros [<-|H]; [reflexivity | auto].
    + destruct (split c r) as [|h t] eqn:X.
      * intros [<-|[]]. simpl. now rewrite E.
      * intros [<-|H].
        -- simpl. rewrite E. simpl. apply IH. now left.
        -- apply IH. now right.
Qed.

Lemma elem_at_not_with_sep (key : string) (i : nat) (s : string) :
  contains "-" s = true -> elem_at (split "-" key) i <> VStr s.
Proof.
  intros Hs. unfold elem_at.
  destruct (nth_error (split "-" key) i) as [frag|] eqn:E; [|discriminate].
  intros [= ->]. apply nth_error_In in E.
  apply split_fragments_without_sep in E. congruence.
Qed.


(** ** The claims on the total records *)

(** C9: in every row-total record and in every column-total record, all
    the metric fields hold one and the same value, the entry of the
    record's own group key in the totals map; when the metric values of
    the rows are numbers or falsy, the key is no inherited name and the
    sums of the group stay in the exact range, that value is the number
    accumulated for the group over all the metrics. *)
Theorem total_record_single_value
  (groupbyRows groupbyColumns metrics : list string)
  (transformed : list (obj value)) (rec : obj value) (m1 m2 : string) :
  In m1 metrics -> In m2 metrics ->
  (In rec (rowTotalsData groupbyRows metrics transformed) ->
   get rec m1 = get rec m2 /\
   exists key,
     In key (keys (rowTotalsMap groupbyRows metrics transformed)) /\
     rec = totalsItem groupbyRows metrics
             (rowTotalsMap groupbyRows metrics transformed) key /\
     get rec m1 = get (rowTotalsMap groupbyRows metrics transformed) key /\
     (numeric_metrics metrics transformed ->
      inherited_name key = false ->
      exact_group groupbyRows metrics transformed key ->
      get rec m1 = VNum (group_sum groupbyRows metrics transformed key))) /\
  (In rec (colTotalsData groupbyColumns metrics transformed) ->
   get rec m1 = get rec m2 /\
   exists key,
     In key (keys (colTotalsMap groupbyColumns metrics transformed)) /\
     rec = totalsItem groupbyColumns metrics
             (colTotalsMap groupbyColumns metrics transformed) key /\
     get rec m1 = get (colTotalsMap groupbyColumns metrics transformed) key /\
     (numeric_metrics metrics transformed ->
      inherited_name key = false ->
      exact_group groupbyColumns metrics transformed key ->
      get rec m1
      = VNum (group_sum groupbyColumns metrics transformed key))).
Proof.
  intros H1 H2.
  assert (G : forall dims,
             In rec (totalsData dims metrics
                       (totalsMap dims metrics transformed)) ->
             get rec m1 = get rec m2 /\
             exists key,
               In key (keys (totalsMap dims metrics transformed)) /\
               rec = totalsItem dims metrics
                       (totalsMap dims metrics transformed) key /\
               get rec m1 = get (totalsMap dims metrics transformed) key /\
               (numeric_metrics metrics transformed ->
                inherited_name key = false ->
                exact_group dims metrics transformed key ->
                get rec m1 = VNum (group_sum dims metrics transformed key))).
  { intros dims Hrec. unfold totalsData in Hrec.
    apply in_map_iff in Hrec. destruct Hrec as (key & <- & Hk).
    rewrite !totalsItem_metric by assumption. split; [reflexivity|].
    exists key. split; [assumption|]. split; [reflexivity|].
    split; [reflexivity|].
    intros Hnum _ _. unfold get. rewrite totalsMap_lookup by assumption.
    apply totalsMap_domain in Hk. now rewrite Hk. }
  split; apply G.
Qed.


(** C6: the dimension fields of a total record are the fragments of its
    group key split on the separator, taken by position; for a row whose
    dimension values are strings without the separator (its key being no
    inherited name) the record of its group is emitted and gives these
    values back; a string value that holds the separator is never given
    back, neither by the split nor by the record of the group. *)
Theorem total_record_dimensions_split_key
  (groupbyRows groupbyColumns metrics : list string)
  (transformed : list (obj value)) :
  (forall rec, In rec (rowTotalsData groupbyRows metrics transformed) ->
     exists key,
       In key (keys (rowTotalsMap groupbyRows metrics transformed)) /\
       forall r, In r groupbyRows -> ~ In r metrics ->
         exists i, nth_error groupbyRows i = Some r /\
                   get rec r = elem_at (split "-" key) i) /\
  (forall rec, In rec (colTotalsData groupbyColumns metrics transformed) ->
     exists key,
       In key (keys (colTotalsMap groupbyColumns metrics transformed)) /\
       forall r, In r groupbyColumns -> ~ In r metrics ->
         exists i, nth_error groupbyColumns i = Some r /\
                   get rec r = elem_at (split "-" key) i) /\
  (forall dims item i r,
     nth_error dims i = Some r ->
     (forall d, In d dims ->
        exists s, get item d = VStr s /\ contains "-" s = false) ->
     elem_at (split "-" (groupKey dims item)) i = get item r) /\
  (forall item,
     In item transformed ->
     inherited_name (groupKey groupbyRows item) = false ->
     (forall r, In r groupbyRows -> ~ In r metrics) ->
     (forall r, In r groupbyRows ->
        exists s, get item r = VStr s /\ contains "-" s = false) ->
     let rec := totalsItem groupbyRows metrics
                  (rowTotalsMap groupbyRows metrics transformed)
                  (groupKey groupbyRows item) in
     In rec (rowTotalsData groupbyRows metrics transformed) /\
     forall r, In r groupbyRows -> get rec r = get item r) /\
  (forall item,
     In item transformed ->
     inherited_name (groupKey groupbyColumns item) = false ->
     (forall r, In r groupbyColumns -> ~ In r metrics) ->
     (forall r, In r groupbyColumns ->
        exists s, get item r = VStr s /\ contains "-" s = false) ->
     let rec := totalsItem groupbyColumns metrics
                  (colTotalsMap groupbyColumns metrics transformed)
                  (groupKey groupbyColumns item) in
     In rec (colTotalsData groupbyColumns metrics transformed) /\
     forall r, In r groupbyColumns -> get rec r = get item r) /\
  (forall key i s,
     contains "-" s = true -> elem_at (split "-" key) i <> VStr s) /\
  (forall dims item r s,
     In item transformed ->
     inherited_name (groupKey dims item) = false ->
     In r dims -> ~ In r metrics ->
     get item r = VStr s -> contains "-" s = true ->
     let rec := totalsItem dims metrics
                  (totalsMap dims metrics transformed)
                  (groupKey dims item) in
     In rec (rowTotalsData dims metrics transformed) /\
     In rec (colTotalsData dims metrics transformed) /\
     get rec r <> get item r).
Proof.
  assert (S : forall dims rec,
             In rec (totalsData dims metrics
                       (totalsMap dims metrics transformed)) ->
             exists key,
               In key (keys (totalsMap dims metrics transformed)) /\
               forall r, In r dims -> ~ In r metrics ->
                 exists i, nth_error dims i = Some r /\
                           get rec r = elem_at (split "-" key) i).
  { intros dims rec Hrec. unfold totalsData in Hrec.
    apply in_map_iff in Hrec. destruct Hrec as (key & <- & Hk).
    exists key. split; [assumption|].
    intros r Hd Hm. now apply totalsItem_dim. }
  assert (R : forall dims item,
             In item transformed ->
             inherited_name (groupKey dims item) = false ->
             (forall r, In r dims -> ~ In r metrics) ->
             (forall r, In r dims ->
                exists s, get item r = VStr s /\ contains "-" s = false) ->
             let rec := totalsItem dims metrics
                          (totalsMap dims metrics transformed)
                          (groupKey dims item) in
             In rec (totalsData dims metrics
                       (totalsMap dims metrics transformed)) /\
             forall r, In r dims -> get rec r = get item r).
  { intros dims item Hin _ Hdisj Hstr rec. split.
    - now apply totalsData_member.
    - intros r Hd. unfold rec. rewrite totalsItem_roundtrip; auto.
      + destruct (Hstr r Hd) as (s & -> & _). reflexivity.
      + intros d Hdd. destruct (Hstr d Hdd) as (s & -> & Hs). exact Hs. }
  split; [apply S | split; [apply S | split]].
  { intros dims item i r Hi Hstr.
    rewrite split_groupKey.
    - unfold elem_at.
      rewrite (map_nth_error (fun d => join_elem (get item d)) _ _ Hi).
      destruct (Hstr r (nth_error_In _ _ Hi)) as (s & -> & _). reflexivity.
    - destruct dims; [destruct i; discriminate | discriminate].
    - intros d Hd. destruct (Hstr d Hd) as (s & -> & Hs). exact Hs. }
  split; [apply R | split; [apply R | split]].
  { intros key i s Hs. now apply elem_at_not_with_sep. }
  intros dims item r s Hin _ Hd Hm Hv Hs rec.
  assert (Hrec : In rec (totalsData dims metrics
                           (totalsMap dims metrics transformed)))
    by now apply totalsData_member.
  split; [exact Hrec | split; [exact Hrec|]].
  unfold rec.
  destruct (totalsItem_dim dims metrics (totalsMap dims metrics transformed)
              (groupKey dims item) r Hd Hm) as (i & _ & ->).
  rewrite Hv. now apply elem_at_not_with_sep.
Qed.

(** C7: the total set built from the query rows is the row-total
    records, then the column-total records, then the one grand-total
    record: position by position the records of each pass, in their
    order, and nothing else. *)
Theorem totalData_is_rows_columns_grand (L : CoreLib) (chartProps : ChartProps L) :
  let fd := formData chartProps in
  let q := queriesData0 chartProps in
  let metricNames := map propertyKey (formattedMetrics (metrics fd)) in
  let reshaped :=
    transformedData L
      (dateFormatters L (dateFormat fd)
         (extractTimegrain L (rawFormData chartProps))
         (colnames q) (coltypes q) (data q))
      (data q) in
  let rowTotals_ := rowTotalsData (groupbyRows fd) metricNames reshaped in
  let colTotals_ := colTotalsData (groupbyColumns fd) metricNames reshaped in
  let grand := sumOfRowTotals metricNames rowTotals_ in
  let total := p_totalData (transformProps L chartProps) in
  let nRows := List.length rowTotals_ in
  let nCols := List.length colTotals_ in
  total = rowTotals_ ++ colTotals_ ++ [grand] /\
  List.length total = (nRows + nCols + 1)%nat /\
  (forall i rec, nth_error rowTotals_ i = Some rec ->
                 nth_error total i = Some rec) /\
  (forall j rec, nth_error colTotals_ j = Some rec ->
                 nth_error total (nRows + j) = Some rec) /\
  nth_error total (nRows + nCols) = Some grand /\
  (forall i rec,
     nth_error total i = Some rec ->
     ((i < nRows)%nat /\ nth_error rowTotals_ i = Some rec) \/
     ((nRows <= i < nRows + nCols)%nat /\
      nth_error colTotals_ (i - nRows) = Some rec) \/
     (i = (nRows + nCols)%nat /\ rec = grand)).
Proof.
  cbv zeta. unfold transformProps, totalData. cbn [p_totalData].
  set (reshaped := transformedData L _ _).
  set (ms := map propertyKey _).
  set (R := rowTotalsData _ ms reshaped).
  set (C := colTotalsData _ ms reshaped).
  set (G := sumOfRowTotals ms R).
  split; [reflexivity|].
  split; [rewrite !length_app; simpl; lia|].
  split.
  { intros i rec Hi. rewrite nth_error_app1; auto.
    apply nth_error_Some. congruence. }
  split.
  { intros j rec Hj. rewrite nth_error_app2 by lia.
    replace (List.length R + j - List.length R)%nat with j by lia.
    rewrite nth_error_app1; auto. apply nth_error_Some. congruence. }
  split.
  { rewrite nth_error_app2 by lia.
    replace (List.length R + List.length C - List.length R)%nat
      with (List.length C) by lia.
    rewrite nth_error_app2 by lia. now rewrite Nat.sub_diag. }
  intros i rec Hi.
  destruct (Nat.lt_ge_cases i (List.length R)) as [Hlt|Hge].
  - left. rewrite nth_error_app1 in Hi by assumption. auto.
  - right. rewrite nth_error_app2 in Hi by assumption.
    destruct (Nat.lt_ge_cases (i - List.length R) (List.length C))
      as [Hlt|Hge'].
    + left. rewrite nth_error_app1 in Hi by assumption. split; [lia|auto].
    + right. rewrite nth_error_app2 in Hi by assumption.
      destruct (i - List.length R - List.length C)%nat as [|k] eqn:E.
      * simpl in Hi. split; [lia | congruence].
      * simpl in Hi. destruct k; discriminate.
Qed.

Lemma totalData_is_rows_columns_grand_witness :
  let total := p_totalData (transformProps sampleCore
                              (sampleChart false ["qty"])) in
  nth_error total 0 = Some [("region", VStr "A"); ("qty", VNum 8)] /\
  nth_error total 2 = Some [("year", VStr "2023"); ("qty", VNum 5)] /\
  nth_error total 4 = Some [("qty", VNum 10)] /\
  List.length total = 5%nat.
Proof.
  cbv zeta.
  destruct (totalData_is_rows_columns_grand sampleCore
              (sampleChart false ["qty"])) as (_ & Hlen & Hr & Hc & Hg & _).
  split; [apply (Hr 0%nat); reflexivity|].
  split; [apply (Hc 0%nat); reflexivity|].
  split; [exact Hg | exact Hlen].
Defined.

(** ** Temporal formatters and the reshaping pass *)

Lemma temporalFrom_In (coltypes : list GenericDataType) (colnames : list string)
  (start : nat) (col : string) :
  In col (temporalFrom coltypes start colnames) <->
  exists i, nth_error colnames i = Some col /\
            nth_error coltypes (start + i) = Some TEMPORAL.
Proof.
  revert start. induction colnames as [|c r IH]; intros start; simpl.
  - split; [tauto|]. intros (i & H & _). destruct i; discriminate.
  - assert (Hr : In col (temporalFrom coltypes (S start) r) <->
                 exists i, nth_error (c :: r) (S i) = Some col /\
                           nth_error coltypes (start + S i) = Some TEMPORAL).
    { rewrite IH. split; intros (i & H1 & H2); exists i; split; auto.
      - now rewrite Nat.add_succ_r.
      - now rewrite Nat.add_succ_r in H2. }
    destruct (nth_error coltypes start) as [[]|] eqn:E; simpl; rewrite Hr.
    all: split.
    all: try (intros (i & H1 & H2); exists (S i); now split).
    all: try (intros (i & H1 & H2); destruct i as [|i];
              [rewrite Nat.add_0_r in H2; congruence | now exists i]).
    + intros [->|(i & H1 & H2)]; [exists 0%nat | exists (S i)]; split; auto.
      now rewrite Nat.add_0_r.
    + intros (i & H1 & H2). destruct i as [|i].
      * left. simpl in H1. congruence.
      * right. now exists i.
Qed.

Lemma temporalColnames_In (colnames : list string)
  (coltypes : list GenericDataType) (col : string) :
  In col (temporalColnames colnames coltypes) <->
  flagged_temporal colnames coltypes col.
Proof. apply temporalFrom_In. Qed.

Lemma lookup_fold_set_opt {A : Type} (g : string -> option A)
  (ks : list string) (o : obj A) (k : string) :
  lookup (fold_left (fun acc c => match g c with
                                  | Some v => set acc c v
                                  | None => acc
                                  end) ks o) k =
  if in_dec string_dec k ks
  then match g k with
       | Some v => Some v
       | None => lookup o k
       end
  else lookup o k.
Proof.
  revert o. induction ks as [|c r IH]; intros o; [reflexivity|].
  cbn [fold_left]. rewrite IH.
  assert (Hother : c <> k ->
            lookup (match g c with Some v => set o c v | None => o end) k
            = lookup o k).
  { intros Hne. destruct (g c); auto. now apply lookup_set_other. }
  assert (Hsame : c = k ->
            lookup (match g c with Some v => set o c v | None => o end) k
            = match g k with Some v => Some v | None => lookup o k end).
  { intros ->. destruct (g k); auto. apply lookup_set_same. }
  destruct (in_dec string_dec k r) as [Hr|Hr];
    destruct (in_dec string_dec k (c :: r)) as [Hc|Hc].
  - destruct (g k) eqn:G; auto.
    destruct (string_dec c k) as [->|Hne]; [|auto].
    now rewrite G.
  - exfalso. apply Hc. now right.
  - destruct Hc as [->|Hc]; [|contradiction]. now apply Hsame.
  - apply Hother. intros ->. apply Hc. now left.
Qed.

Lemma fold_left_pointwise {A B : Type} (f f' : A -> B -> A) (l : list B)
  (a : A) :
  (forall x y, f x y = f' x y) -> fold_left f l a = fold_left f' l a.
Proof.
  intros H. revert a. induction l as [|b r IH]; intros a; simpl; auto.
  now rewrite H, IH.
Qed.

Section ReshapeFacts.

Variable L : CoreLib.

(** The reducer keeps, for every flagged column, the formatter selected
    for it, and nothing for the other columns. *)
Lemma dateFormatters_lookup (dateFormat granularity : option string)
  (colnames : list string) (coltypes : list GenericDataType)
  (data : list (obj value)) (col : string) :
  lookup (dateFormatters L dateFormat granularity colnames coltypes data) col
  = if in_dec string_dec col (temporalColnames colnames coltypes)
    then selectFormatter L dateFormat granularity data col
    else None.
Proof.
  unfold dateFormatters.
  rewrite (lookup_fold_set_opt
             (selectFormatter L dateFormat granularity data)).
  destruct (in_dec string_dec col (temporalColnames colnames coltypes));
    auto.
  now destruct (selectFormatter L dateFormat granularity data col).
Qed.

(** A reshaped row, field by field. *)
Lemma transformItem_get (formatters : obj DateFormatter) (item : obj value)
  (col : string) :
  get (transformItem L formatters item) col =
  match lookup formatters col with
  | Some formatter =>
      VStr (callFormatter L formatter (new_Date L (get item col)))
  | None => get item col
  end.
Proof.
  unfold transformItem.
  rewrite (fold_cond_as_filter
             (fun c => negb (existsb (String.eqb c) (keys formatters)))
             (fun t c => set t c (get item c))).
  rewrite (get_fold_set (get item)).
  set (g := fun c =>
              match lookup formatters c with
              | Some formatter =>
                  VStr (callFormatter L formatter (new_Date L (get item c)))
              | None => get item c
              end).
  rewrite (fold_left_pointwise _ (fun t c => set t c (g c))).
  2:{ intros t c. unfold g. now destruct (lookup formatters c). }
  rewrite (get_fold_set g).
  destruct (lookup formatters col) as [f|] eqn:E.
  - assert (Hk : In col (keys formatters)) by (apply In_keys; congruence).
    destruct (in_dec string_dec col (filter _ (keys item))) as [Hf|_].
    + apply filter_In in Hf. destruct Hf as [_ Hf].
      apply existsb_eqb_In in Hk. rewrite Hk in Hf. discriminate.
    + destruct (in_dec string_dec col (keys formatters)); [|contradiction].
      unfold g. now rewrite E.
  - assert (Hk : ~ In col (keys formatters)).
    { rewrite In_keys. congruence. }
    destruct (in_dec string_dec col (filter _ (keys item))) as [_|Hf];
      [reflexivity|].
    destruct (in_dec string_dec col (keys formatters)); [contradiction|].
    unfold get at 1. simpl.
    destruct (lookup item col) as [v|] eqn:Ei.
    + exfalso. apply Hf. apply filter_In. split.
      * apply In_keys. congruence.
      * apply negb_true_iff.
        destruct (existsb (String.eqb col) (keys formatters)) eqn:X; auto.
        apply existsb_eqb_In in X. contradiction.
    + unfold get. now rewrite Ei.
Qed.

End ReshapeFacts.

Lemma isNumeric_iff (key : string) (data : list (obj value)) :
  isNumeric key data = true <->
  forall record, In record data -> numeric_or_absent (get record key).
Proof.
  unfold isNumeric. rewrite forallb_forall.
  split; intros H record Hin; specialize (H record Hin).
  - unfold numeric_or_absent.
    destruct (get record key); try discriminate; eauto.
  - destruct H as [->|[->|[->|[z ->]]]]; reflexivity.
Qed.

(** C3: for a column flagged temporal the reducer records the formatter
    of the four-branch policy: with the smart format and a known
    granularity, the granularity formatter; with the smart format, no
    granularity and only numbers, nulls or absent values in the column,
    the database-datetime formatter; with the smart format otherwise,
    the string conversion; with another, non-empty format, the formatter
    built from it; with no format nothing is recorded and the column is
    left as it is.  A column of nulls falls under the second branch. *)
Theorem temporal_formatter_policy (L : CoreLib)
  (dateFormat granularity : option string) (colnames : list string)
  (coltypes : list GenericDataType) (data : list (obj value))
  (col : string) :
  flagged_temporal colnames coltypes col ->
  let formatters :=
    dateFormatters L dateFormat granularity colnames coltypes data in
  let smart := dateFormat = Some (smartDateFormatter_id L) in
  (isNumeric col data = true <->
   forall record, In record data -> numeric_or_absent (get record col)) /\
  (smart -> forall g, granularity = Some g -> g <> "" ->
   lookup formatters col = Some (GranularityFormatter g)) /\
  (smart -> truthy_string granularity = false ->
   isNumeric col data = true ->
   lookup formatters col = Some (TimeFormatter (DATABASE_DATETIME L))) /\
  (smart -> truthy_string granularity = false ->
   isNumeric col data = false ->
   lookup formatters col = Some StringFormatter) /\
  (forall f, dateFormat = Some f -> f <> smartDateFormatter_id L ->
   f <> "" ->
   lookup formatters col = Some (TimeFormatter f)) /\
  (dateFormat = None \/
   (dateFormat = Some "" /\ smartDateFormatter_id L <> "") ->
   lookup formatters col = None /\
   forall item, get (transformItem L formatters item) col = get item col) /\
  (smart -> truthy_string granularity = false ->
   (forall record, In record data -> get record col = VNull) ->
   lookup formatters col = Some (TimeFormatter (DATABASE_DATETIME L))).
Proof.
  intros Hflag formatters smart.
  assert (E : lookup formatters col
              = selectFormatter L dateFormat granularity data col).
  { unfold formatters. rewrite dateFormatters_lookup.
    apply temporalColnames_In in Hflag.
    destruct (in_dec string_dec col (temporalColnames colnames coltypes));
      [reflexivity | contradiction]. }
  assert (B2 : smart -> truthy_string granularity = false ->
               isNumeric col data = true ->
               lookup formatters col
               = Some (TimeFormatter (DATABASE_DATETIME L))).
  { intros Hs Hg Hn. rewrite E. unfold selectFormatter.
    unfold smart in Hs. rewrite Hs, String.eqb_refl, Hn.
    destruct granularity; [rewrite Hg|]; reflexivity. }
  split; [apply isNumeric_iff|].
  split; [|split; [exact B2|split; [|split; [|split]]]].
  - intros Hs g -> Hg. rewrite E. unfold selectFormatter.
    unfold smart in Hs. rewrite Hs, String.eqb_refl. simpl.
    apply String.eqb_neq in Hg. now rewrite Hg.
  - intros Hs Hg Hn. rewrite E. unfold selectFormatter.
    unfold smart in Hs. rewrite Hs, String.eqb_refl, Hn.
    destruct granularity; [rewrite Hg|]; reflexivity.
  - intros f -> Hne Hf. rewrite E. unfold selectFormatter.
    apply String.eqb_neq in Hne, Hf. rewrite Hne. simpl. now rewrite Hf.
  - intros Hd.
    assert (N : lookup formatters col = None).
    { rewrite E. unfold selectFormatter.
      destruct Hd as [->|[-> Hne]]; [reflexivity|].
      destruct (String.eqb "" (smartDateFormatter_id L)) eqn:X;
        [|reflexivity].
      apply String.eqb_eq in X. congruence. }
    split; [exact N|]. intros item. now rewrite transformItem_get, N.
  - intros Hs Hg Hnull. apply B2; auto.
    apply isNumeric_iff. intros record Hin. left. auto.
Qed.

(** C5: the reshaping pass gives one row per input row, in the order of
    the input; in the row at each position a temporal column with a
    resolved formatter holds the formatter applied to the date built
    from the raw value, and every column that is not temporal holds the
    raw value. *)
Theorem reshaped_rows (L : CoreLib) (chartProps : ChartProps L) :
  let q := queriesData0 chartProps in
  let granularity := extractTimegrain L (rawFormData chartProps) in
  let dateFormat_ := dateFormat (formData chartProps) in
  let reshaped := p_data (transformProps L chartProps) in
  List.length reshaped = List.length (data q) /\
  forall i item,
    nth_error (data q) i = Some item ->
    exists transformedItem,
      nth_error reshaped i = Some transformedItem /\
      (forall col formatter,
         flagged_temporal (colnames q) (coltypes q) col ->
         selectFormatter L dateFormat_ granularity (data q) col
         = Some formatter ->
         get transformedItem col
         = VStr (callFormatter L formatter (new_Date L (get item col)))) /\
      (forall col,
         ~ flagged_temporal (colnames q) (coltypes q) col ->
         get transformedItem col = get item col).
Proof.
  cbv zeta. unfold transformProps. cbn [p_data]. unfold transformedData.
  split; [apply length_map|].
  intros i item Hi.
  eexists. split; [apply map_nth_error; exact Hi|].
  split.
  - intros col formatter Hflag Hsel.
    rewrite transformItem_get, dateFormatters_lookup.
    apply temporalColnames_In in Hflag.
    destruct (in_dec string_dec col _); [|contradiction].
    now rewrite Hsel.
  - intros col Hflag.
    rewrite transformItem_get, dateFormatters_lookup.
    destruct (in_dec string_dec col _) as [Hin|]; [|reflexivity].
    apply temporalColnames_In in Hin. contradiction.
Qed.

(** ** Transposition *)

(** C2, as the code has it: the transpose flag swaps the two dimension
    lists in the axis layout only; the reshaped rows, the total records
    and the dimension lists handed on do not depend on the flag, the
    row-total pass grouping by the configured row dimensions and the
    column-total pass by the configured column dimensions. *)
Theorem transpose_swaps_layout_only (L : CoreLib) (chartProps : ChartProps L) :
  let fd := formData chartProps in
  let transposed := transformProps L (with_transpose true chartProps) in
  let plain := transformProps L (with_transpose false chartProps) in
  rows (p_fields transposed) = groupbyColumns fd /\
  columns (p_fields transposed) = groupbyRows fd /\
  rows (p_fields plain) = groupbyRows fd /\
  columns (p_fields plain) = groupbyColumns fd /\
  values (p_fields transposed) = values (p_fields plain) /\
  p_data transposed = p_data plain /\
  p_totalData transposed = p_totalData plain /\
  p_totalData transposed
  = totalData (groupbyRows fd) (groupbyColumns fd)
      (map propertyKey (formattedMetrics (metrics fd)))
      (p_data transposed) /\
  p_groupbyRows transposed = groupbyRows fd /\
  p_groupbyColumns transposed = groupbyColumns fd.
Proof.
  cbv zeta. repeat split; reflexivity.
Qed.

(** C2, as stated, fails: with the flag set the row totals are still
    grouped by the configured row dimension [region], not by [year]. *)
Lemma transpose_keeps_aggregation_keys :
  let props := transformProps sampleCore (sampleChart true ["qty"]) in
  rows (p_fields props) = ["year"] /\
  p_totalData props
  <> totalData ["year"] ["region"] ["qty"] (p_data props) /\
  p_totalData props
  = [ [("region", VStr "A"); ("qty", VNum 8)];
      [("region", VStr "B"); ("qty", VNum 2)];
      [("year", VStr "2023"); ("qty", VNum 5)];
      [("year", VStr "2024"); ("qty", VNum 5)];
      [("qty", VNum 10)] ].
Proof.
  cbv zeta. split; [reflexivity|]. split; [|reflexivity].
  vm_compute. discriminate.
Qed.

(** ** Totals over several metrics *)

(** C1 on two metrics: every metric field of a row-total record and of a
    column-total record holds the sum of both metrics over the group,
    not the sum of its own metric. *)
Theorem totals_mix_the_metrics :
  let metricNames := ["qty"; "amt"] in
  rowTotalsData ["region"] metricNames sampleRows
  = [ [("region", VStr "A"); ("qty", VNum 38); ("amt", VNum 38)];
      [("region", VStr "B"); ("qty", VNum 32); ("amt", VNum 32)] ] /\
  metric_sum ["region"] "qty" sampleRows "A" = 8%Z /\
  metric_sum ["region"] "amt" sampleRows "A" = 30%Z /\
  colTotalsData ["year"] metricNames sampleRows
  = [ [("year", VStr "2023"); ("qty", VNum 45); ("amt", VNum 45)];
      [("year", VStr "2024"); ("qty", VNum 25); ("amt", VNum 25)] ] /\
  metric_sum ["year"] "qty" sampleRows "2023" = 5%Z.
Proof.
  cbv zeta. repeat split; reflexivity.
Qed.

(** C4 on two metrics: the grand total of a metric is the sum of that
    field over the row-total records, but not the sum of the metric over
    the input rows. *)
Theorem grand_total_mixes_the_metrics :
  let metricNames := ["qty"; "amt"] in
  let rowTotals_ := rowTotalsData ["region"] metricNames sampleRows in
  sumOfRowTotals metricNames rowTotals_
  = [("qty", VNum 70); ("amt", VNum 70)] /\
  fold_right (fun rec acc => (contribution (get rec "qty") + acc)%Z) 0%Z
    rowTotals_ = 70%Z /\
  fold_right (fun item acc => (contribution (get item "qty") + acc)%Z) 0%Z
    sampleRows = 10%Z.
Proof.
  cbv zeta. repeat split; reflexivity.
Qed.

(** ** The render effect *)

Lemma removeChildren_nil {A : Type} (children : list A) :
  removeChildren children = [].
Proof. induction children; simpl; auto. Qed.

Section EffectFacts.

Variable widget : S2DataConfig -> S2Options -> PivotWidget.
Variable props : Props.

Let W : PivotWidget := widget (s2DataConfig props) (s2Options props).

(** The handler of [catch] only writes to the console. *)
Lemma fetch_after_try (w : world widget props) :
  let body := tryBlock widget props w in
  let out := fetchDataAndRenderSheet widget props w in
  snd out = inr tt /\
  container (fst out) = container (fst body) /\
  calls (fst out) = calls (fst body) /\
  rejections (fst out) = rejections (fst body) /\
  console (fst out)
  = match snd body with
    | inl e => console (fst body) ++ [(errorMessage, e)]
    | inr _ => console (fst body)
    end.
Proof.
  cbv zeta. unfold fetchDataAndRenderSheet, try_catch.
  destruct (tryBlock widget props w) as [w' [e|[]]]; simpl; auto 6.
Qed.

(** What the statements inside [try] do. *)
Lemma tryBlock_run (w : world widget props) :
  let body := tryBlock widget props w in
  rejections (fst body) = rejections w /\
  console (fst body) = console w /\
  match container w with
  | None =>
      snd body = inl TypeError /\
      container (fst body) = None /\ calls (fst body) = calls w
  | Some _ =>
      match construct W [] with
      | (d1, inl e) =>
          snd body = inl (Thrown e) /\
          container (fst body) = Some d1 /\
          calls (fst body) = calls w ++ [CallConstruct]
      | (d1, inr s2) =>
          container (fst body) = Some (fst (render W s2 d1)) /\
          calls (fst body) = calls w ++ [CallConstruct; CallRender] /\
          snd body = match snd (render W s2 d1) with
                     | inl e => inl (Thrown e)
                     | inr u => inr u
                     end
      end
  end.
Proof.
  cbv zeta. unfold tryBlock, bind, clearContainer.
  destruct (container w) as [children|] eqn:C; simpl; auto.
  rewrite removeChildren_nil. unfold W.
  destruct (construct _ []) as [d1 [e|s2]] eqn:K; simpl; auto.
  rewrite <- app_assoc. simpl.
  destruct (render _ s2 d1) as [d2 [e|u]]; simpl; auto.
Qed.

End EffectFacts.

Lemma effect_after_fetch (widget : S2DataConfig -> S2Options -> PivotWidget)
  (props : Props) (w : world widget props) :
  effect widget props w
  = (fst (fetchDataAndRenderSheet widget props w),
     inr (cleanup widget props)).
Proof.
  unfold effect, bind, call_async, ret.
  pose proof (fetch_after_try widget props w) as H. cbv zeta in H.
  destruct H as [H _].
  destruct (fetchDataAndRenderSheet widget props w) as [w' r].
  simpl in *. now subst r.
Qed.

(** C8, as the code has it: an exception raised inside [try], by the
    constructor of the widget, by its [render] or by reading the
    children of a null mount point, never leaves the effect; it is
    written to the console once, no promise is rejected, the widget is
    not called again, and the handler does not touch the mount point,
    which holds what the widget left there after the clearing step. *)
Theorem render_failure_is_logged
  (widget : S2DataConfig -> S2Options -> PivotWidget) (props : Props)
  (w : world widget props) :
  let W := widget (s2DataConfig props) (s2Options props) in
  let body := tryBlock widget props w in
  let out := effect widget props w in
  snd out = inr (cleanup widget props) /\
  rejections (fst out) = rejections w /\
  (forall e, snd body = inl e ->
             console (fst out) = console w ++ [(errorMessage, e)]) /\
  (forall u, snd body = inr u -> console (fst out) = console w) /\
  (exists made,
     calls (fst out) = calls w ++ made /\
     (made = [] \/ made = [CallConstruct]
      \/ made = [CallConstruct; CallRender])) /\
  container (fst out) = container (fst body) /\
  (container w = None ->
   snd body = inl TypeError /\ container (fst out) = None) /\
  (forall children d1 e,
     container w = Some children -> construct W [] = (d1, inl e) ->
     snd body = inl (Thrown e) /\ container (fst out) = Some d1) /\
  (forall children d1 s2 d2 e,
     container w = Some children -> construct W [] = (d1, inr s2) ->
     render W s2 d1 = (d2, inl e) ->
     snd body = inl (Thrown e) /\ container (fst out) = Some d2).
Proof.
  cbv zeta. rewrite effect_after_fetch. cbn [fst snd].
  pose proof (fetch_after_try widget props w) as F.
  pose proof (tryBlock_run widget props w) as T.
  cbv zeta in F, T.
  destruct F as (_ & Fc & Fk & Fr & Fl).
  destruct T as (Tr & Tl & T).
  rewrite Fc, Fk, Fr, Fl, Tr, Tl.
  split; [reflexivity|]. split; [reflexivity|].
  split; [intros e ->; reflexivity|].
  split; [intros u ->; reflexivity|].
  split.
  - destruct (container w).
    + destruct (construct _ []) as [d1 [e|s2]].
      * exists [CallConstruct]. intuition.
      * exists [CallConstruct; CallRender]. intuition.
    + exists []. rewrite app_nil_r. intuition.
  - split; [reflexivity|]. split; [|split].
    + intros C. rewrite C in T. tauto.
    + intros children d1 e C K. rewrite C, K in T. tauto.
    + intros children d1 s2 d2 e C K R. rewrite C, K, R in T.
      simpl in T. tauto.
Qed.

(** C8, as stated, fails on its last point: when the widget raises in
    [render] after its constructor mounted a canvas, the error is logged
    and the mount point is not blank. *)
Lemma render_failure_leaves_canvas :
  let w : world failingRender sampleProps := mounted [] in
  let out := effect failingRender sampleProps w in
  snd (tryBlock failingRender sampleProps w)
  = inl (Thrown ("render failed" : Error (failingRender _ _))) /\
  console (fst out)
  = [(errorMessage, Thrown ("render failed" : Error (failingRender _ _)))] /\
  container (fst out) = Some ["canvas"] /\
  container (fst out) <> Some [].
Proof.
  cbv zeta. repeat split; try reflexivity. vm_compute. discriminate.
Qed.

(** When the constructor raises before it mounts anything, the mount
    point is left blank. *)
Lemma render_failure_is_logged_witness :
  let w := @mounted failingConstruct sampleProps ["old"] in
  let out := effect failingConstruct sampleProps w in
  snd (tryBlock failingConstruct sampleProps w)
  = inl (Thrown ("no canvas" : Error (failingConstruct _ _))) /\
  container (fst out) = Some [].
Proof.
  cbv zeta.
  apply (render_failure_is_logged failingConstruct sampleProps
           (@mounted failingConstruct sampleProps ["old"]))
    with (children := ["old"]); reflexivity.
Defined.

(** ** What holds of the totals in general *)



Lemma sum_step_fields (metrics : list string) (sum item : obj value)
  (k : string) :
  lookup (fold_left
            (fun s metric =>
               set s metric (js_add (js_or (get s metric) (VNum 0))
                               (get item metric)))
            metrics sum) k <> None ->
  In k metrics \/ lookup sum k <> None.
Proof.
  revert sum. induction metrics as [|metric r IH]; intros sum; simpl; auto.
  intros H. apply IH in H. destruct H as [H|H]; auto.
  rewrite lookup_set in H.
  destruct (String.eqb metric k) eqn:E; auto.
  apply String.eqb_eq in E. auto.
Qed.



(** The grand-total record has metric fields only. *)
Lemma sumOfRowTotals_fields (metrics : list string)
  (recs : list (obj value)) (k : string) :
  lookup (sumOfRowTotals metrics recs) k <> None -> In k metrics.
Proof.
  unfold sumOfRowTotals.
  assert (G : forall sum,
             lookup (fold_left
                       (fun sum item =>
                          fold_left
                            (fun s metric =>
                               set s metric
                                 (js_add (js_or (get s metric) (VNum 0))
                                    (get item metric)))
                            metrics sum) recs sum) k <> None ->
             In k metrics \/ lookup sum k <> None).
  { induction recs as [|rec r IH]; intros sum; simpl; auto.
    intros H. apply IH in H. destruct H as [H|H]; auto.
    now apply sum_step_fields in H. }
  intros H. apply G in H. destruct H as [H|H]; auto.
  simpl in H. congruence.
Qed.

(** ** One record per group, and the grand total over the rows *)

Lemma map_fst_set {A : Type} (o : obj A) (k : string) (v : A) :
  map fst (set o k v)
  = match lookup o k with
    | Some _ => map fst o
    | None => map fst o ++ [k]
    end.
Proof.
  induction o as [|[k' v'] r IH]; simpl; auto.
  destruct (String.eqb k' k) eqn:E; simpl; auto.
  rewrite IH. now destruct (lookup r k).
Qed.

Lemma set_distinct {A : Type} (o : obj A) (k : string) (v : A) :
  distinct_names o -> distinct_names (set o k v).
Proof.
  unfold distinct_names. intros H. rewrite map_fst_set.
  destruct (lookup o k) eqn:E; auto.
  apply NoDup_app; auto.
  - constructor; [simpl; tauto | constructor].
  - intros a Ha [<-|[]]. apply lookup_None_iff in E. contradiction.
Qed.

Lemma accumulate_distinct (dims metrics : list string) (m item : obj value) :
  distinct_names m -> distinct_names (accumulate dims metrics m item).
Proof.
  intros H. unfold accumulate.
  set (started := if negb (truthy (get m (groupKey dims item)))
                  then set m (groupKey dims item) (VNum 0) else m).
  assert (Hs : distinct_names started).
  { unfold started. destruct (negb _); auto using set_distinct. }
  clearbody started. revert started Hs.
  induction metrics as [|metric r IH]; intros started Hs; simpl; auto.
  apply IH. now apply set_distinct.
Qed.

Lemma totalsMap_distinct (dims metrics : list string)
  (rowsIn : list (obj value)) :
  distinct_names (totalsMap dims metrics rowsIn).
Proof.
  unfold totalsMap.
  assert (G : forall m, distinct_names m ->
                        distinct_names
                          (fold_left (accumulate dims metrics) rowsIn m)).
  { induction rowsIn as [|item r IH]; intros m Hm; simpl; auto.
    apply IH. now apply accumulate_distinct. }
  apply G. constructor.
Qed.

Lemma insert_index_perm (x : N * string) (l : list (N * string)) :
  Permutation (insert_index x l) (x :: l).
Proof.
  induction l as [|y r IH]; simpl; auto.
  destruct (N.leb (fst x) (fst y)); auto.
  rewrite IH. apply perm_swap.
Qed.

Lemma sorted_indices_perm (l : list (N * string)) :
  Permutation (fold_right insert_index [] l) l.
Proof.
  induction l as [|y r IH]; simpl; auto.
  rewrite insert_index_perm. now constructor.
Qed.

Lemma indexed_keys_names (ks : list string) :
  map snd (indexed_keys ks) = filter (fun k => negb (is_plain_key k)) ks.
Proof.
  unfold indexed_keys, is_plain_key.
  induction ks as [|k r IH]; simpl; auto.
  destruct (array_index k); simpl; now rewrite IH.
Qed.

Lemma own_keys_NoDup (ks : list string) : NoDup ks -> NoDup (own_keys ks).
Proof.
  intros H. unfold own_keys. apply NoDup_app.
  - apply (Permutation_NoDup
             (l := map snd (indexed_keys ks))).
    + apply Permutation_map. symmetry. apply sorted_indices_perm.
    + rewrite indexed_keys_names. now apply NoDup_filter.
  - now apply NoDup_filter.
  - intros k H1 H2. apply filter_In in H2. destruct H2 as [_ H2].
    apply (Permutation_in (l' := map snd (indexed_keys ks))) in H1.
    + rewrite indexed_keys_names in H1. apply filter_In in H1.
      destruct H1 as [_ H1]. rewrite H2 in H1. discriminate.
    + apply Permutation_map, sorted_indices_perm.
Qed.

(** One key, hence one record, per group. *)
Lemma totalsMap_keys_NoDup (dims metrics : list string)
  (rowsIn : list (obj value)) :
  NoDup (keys (totalsMap dims metrics rowsIn)).
Proof. apply own_keys_NoDup, totalsMap_distinct. Qed.







(** ** The claims at work on examples *)

Lemma sampleRows_numeric : numeric_metrics ["qty"; "amt"] sampleRows.
Proof.
  intros item metric Hi Hm. simpl in Hi, Hm.
  destruct Hi as [<-|[<-|[<-|[]]]]; destruct Hm as [<-|[<-|[]]];
    reflexivity.
Defined.

Lemma temporal_formatter_policy_witness :
  flagged_temporal ["ts"; "qty"] [TEMPORAL; NUMERIC] "ts" /\
  lookup (dateFormatters sampleCore (Some "smart_date") None
            ["ts"; "qty"] [TEMPORAL; NUMERIC]
            [[("ts", VNull); ("qty", VNum 1)]]) "ts"
  = Some (TimeFormatter "%Y-%m-%d %H:%M:%S").
Proof.
  assert (F : flagged_temporal ["ts"; "qty"] [TEMPORAL; NUMERIC] "ts").
  { exists 0%nat. split; reflexivity. }
  split; [exact F|].
  pose proof (temporal_formatter_policy sampleCore (Some "smart_date") None
                ["ts"; "qty"] [TEMPORAL; NUMERIC]
                [[("ts", VNull); ("qty", VNum 1)]] "ts" F) as T.
  cbv zeta in T. destruct T as (_ & _ & _ & _ & _ & _ & T).
  apply T; [reflexivity | reflexivity |].
  intros record [<-|[]]. reflexivity.
Defined.

Lemma total_record_single_value_witness :
  let rec := [("region", VStr "A"); ("qty", VNum 38); ("amt", VNum 38)] in
  In rec (rowTotalsData ["region"] ["qty"; "amt"] sampleRows) /\
  get rec "qty" = get rec "amt" /\
  get rec "qty"
  = VNum (group_sum ["region"] ["qty"; "amt"] sampleRows "A").
Proof.
  cbv zeta.
  assert (Hin : In [("region", VStr "A"); ("qty", VNum 38); ("amt", VNum 38)]
                  (rowTotalsData ["region"] ["qty"; "amt"] sampleRows)).
  { left. reflexivity. }
  split; [exact Hin|].
  destruct (total_record_single_value ["region"] ["year"] ["qty"; "amt"]
              sampleRows
              [("region", VStr "A"); ("qty", VNum 38); ("amt", VNum 38)]
              "qty" "amt") as [R _].
  - simpl. auto.
  - simpl. auto.
  - destruct (R Hin) as [E (key & Hk & Hrec & _ & N)].
    split; [exact E|].
    vm_compute in Hk. destruct Hk as [<-|[<-|[]]].
    + apply N.
      * exact sampleRows_numeric.
      * reflexivity.
      * unfold exact_group. vm_compute. discriminate.
    + vm_compute in Hrec. discriminate.
Defined.


Lemma total_record_dimensions_split_key_witness :
  let item := [("region", VStr "A"); ("year", VStr "2023");
               ("qty", VNum 3); ("amt", VNum 10)] in
  let rec := totalsItem ["region"] ["qty"]
               (rowTotalsMap ["region"] ["qty"] sampleRows)
               (groupKey ["region"] item) in
  let lossy := [("a", VStr "x-y"); ("b", VStr "z")] in
  In rec (rowTotalsData ["region"] ["qty"] sampleRows) /\
  get rec "region" = VStr "A" /\
  get (totalsItem ["a"; "b"] ["qty"] (totalsMap ["a"; "b"] ["qty"] [lossy])
         (groupKey ["a"; "b"] lossy)) "a" <> get lossy "a".
Proof.
  cbv zeta.
  destruct (total_record_dimensions_split_key ["region"] ["year"] ["qty"]
              sampleRows) as (_ & _ & _ & R & _).
  destruct (R [("region", VStr "A"); ("year", VStr "2023");
               ("qty", VNum 3); ("amt", VNum 10)]) as [Hin Hget].
  - left. reflexivity.
  - reflexivity.
  - intros r [<-|[]]. simpl. intros [H|[]]. discriminate.
  - intros r [<-|[]]. exists "A". split; reflexivity.
  - split; [exact Hin|]. split; [apply (Hget "region"); simpl; auto|].
    destruct (total_record_dimensions_split_key [] [] ["qty"]
                [[("a", VStr "x-y"); ("b", VStr "z")]])
      as (_ & _ & _ & _ & _ & _ & Lossy).
    apply (Lossy ["a"; "b"] [("a", VStr "x-y"); ("b", VStr "z")] "a" "x-y").
    + left. reflexivity.
    + reflexivity.
    + simpl. auto.
    + simpl. intros [H|[]]. discriminate.
    + reflexivity.
    + reflexivity.
Defined.

Lemma reshaped_rows_witness :
  exists transformedItem,
    nth_error (p_data (transformProps sampleCore temporalChart)) 0
    = Some transformedItem /\
    get transformedItem "ts" = VStr "%Y-%m-%d %H:%M:%S:1700000000000" /\
    get transformedItem "qty" = VNum 1.
Proof.
  destruct (reshaped_rows sampleCore temporalChart) as [_ R].
  destruct (R 0%nat [("ts", VNum 1700000000000); ("region", VNull);
                     ("year", VNum 2023); ("qty", VNum 1)] eq_refl)
    as (t & Ht & Hf & Hc).
  exists t. split; [exact Ht|]. split.
  - apply (Hf "ts" (TimeFormatter "%Y-%m-%d %H:%M:%S")).
    + exists 0%nat. split; reflexivity.
    + reflexivity.
  - apply (Hc "qty"). intros (i & Hn & Ht').
    destruct i as [|[|[|[|[|i]]]]]; simpl in Hn, Ht'; discriminate.
Defined.

(** ** Sanity checks *)

Example string_of_Z_negative : string_of_Z (-12) = "-12".
Proof. reflexivity. Qed.

Example keys_order :
  keys [("b", 1); ("10", 2); ("a", 3); ("2", 4); ("01", 5)]
  = ["2"; "10"; "b"; "a"; "01"].
Proof. reflexivity. Qed.

Example split_trailing_separator : split "-" "a-" = ["a"; ""].
Proof. reflexivity. Qed.

Example add_concatenates : js_add (VNum 3) (VStr "4") = VStr "34".
Proof. reflexivity. Qed.

(** The scenario of the specification: one metric, one row dimension. *)
Example scenario_region_qty :
  let rowsIn := [ [("region", VStr "A"); ("qty", VNum 3)];
                  [("region", VStr "A"); ("qty", VNum 5)];
                  [("region", VStr "B"); ("qty", VNum 2)] ] in
  let rowTotals_ := rowTotalsData ["region"] ["qty"] rowsIn in
  rowTotals_ = [ [("region", VStr "A"); ("qty", VNum 8)];
                 [("region", VStr "B"); ("qty", VNum 2)] ] /\
  sumOfRowTotals ["qty"] rowTotals_ = [("qty", VNum 10)].
Proof. split; reflexivity. Qed.


(** * Further properties of the code *)

(** ** Edge cases of the transform *)

(** With no rows in the query result the transform hands on no row, no
    row-total and no column-total record, and a grand-total record with
    no field at all: every metric reads as undefined there, not as 0. *)
Theorem transformProps_without_rows (L : CoreLib) (chartProps : ChartProps L) :
  data (queriesData0 chartProps) = [] ->
  let props := transformProps L chartProps in
  p_data props = [] /\
  p_totalData props = [[]] /\
  forall metric rec, In rec (p_totalData props) -> get rec metric = VUndef.
Proof.
  intros H. cbv zeta. unfold transformProps. cbn [p_data p_totalData].
  rewrite H. cbn. split; [reflexivity|]. split; [reflexivity|].
  intros metric rec [<-|[]]. reflexivity.
Qed.

Lemma transformProps_without_rows_witness :
  let chart : ChartProps sampleCore :=
    {| width := 1; height := 1; formData := sampleForm false ["qty"];
       rawFormData := (None : RawFormData sampleCore);
       queriesData0 := {| colnames := ["qty"]; coltypes := [NUMERIC];
                          data := [] |};
       verboseMap := [] |} in
  p_totalData (transformProps sampleCore chart) = [[]].
Proof.
  cbv zeta.
  apply (transformProps_without_rows sampleCore
           {| width := 1; height := 1; formData := sampleForm false ["qty"];
              rawFormData := (None : RawFormData sampleCore);
              queriesData0 := {| colnames := ["qty"]; coltypes := [NUMERIC];
                                 data := [] |};
              verboseMap := [] |}).
  reflexivity.
Defined.

Lemma sampleRows_plain_groups (dims : list string) :
  dims = ["region"] \/ dims = ["year"] -> plain_groups dims sampleRows.
Proof.
  intros [->| ->] item [<-|[<-|[<-|[]]]]; reflexivity.
Defined.


(** One record per group: when no row joins to an inherited name, the
    keys of a totals map are pairwise distinct and are exactly the keys
    the rows join to, so the row-total and the column-total records are
    as many as the distinct keys, never more than the rows. *)
Theorem one_total_record_per_group
  (groupbyRows groupbyColumns metrics : list string)
  (transformed : list (obj value)) :
  plain_groups groupbyRows transformed ->
  plain_groups groupbyColumns transformed ->
  let rowMap := rowTotalsMap groupbyRows metrics transformed in
  let colMap := colTotalsMap groupbyColumns metrics transformed in
  NoDup (keys rowMap) /\ NoDup (keys colMap) /\
  (forall key, In key (keys rowMap) <->
     exists item, In item transformed /\ groupKey groupbyRows item = key) /\
  (forall key, In key (keys colMap) <->
     exists item, In item transformed /\
                  groupKey groupbyColumns item = key) /\
  List.length (rowTotalsData groupbyRows metrics transformed)
  = List.length (keys rowMap) /\
  List.length (colTotalsData groupbyColumns metrics transformed)
  = List.length (keys colMap) /\
  (List.length (rowTotalsData groupbyRows metrics transformed)
   <= List.length transformed)%nat /\
  (List.length (colTotalsData groupbyColumns metrics transformed)
   <= List.length transformed)%nat.
Proof.
  intros _ _. cbv zeta.
  assert (K : forall dims key,
             In key (keys (totalsMap dims metrics transformed)) <->
             exists item, In item transformed /\ groupKey dims item = key).
  { intros dims key. rewrite totalsMap_domain. split.
    - apply in_group_witness.
    - intros (item & Hin & <-). now apply in_group_member. }
  assert (B : forall dims,
             (List.length (totalsData dims metrics
                             (totalsMap dims metrics transformed))
              <= List.length transformed)%nat).
  { intros dims. unfold totalsData. rewrite length_map.
    rewrite <- (length_map (groupKey dims) transformed).
    apply NoDup_incl_length; [apply totalsMap_keys_NoDup|].
    intros key Hk. apply K in Hk. destruct Hk as (item & Hin & <-).
    now apply in_map. }
  unfold rowTotalsData, colTotalsData, rowTotalsMap, colTotalsMap.
  repeat split; try apply totalsMap_keys_NoDup; try apply K; try apply B;
    unfold totalsData; apply length_map.
Qed.

Lemma one_total_record_per_group_witness :
  List.length (rowTotalsData ["region"] ["qty"] sampleRows) = 2%nat /\
  In "B" (keys (rowTotalsMap ["region"] ["qty"] sampleRows)).
Proof.
  destruct (one_total_record_per_group ["region"] ["year"] ["qty"]
              sampleRows
              (sampleRows_plain_groups ["region"] (or_introl eq_refl))
              (sampleRows_plain_groups ["year"] (or_intror eq_refl)))
    as (_ & _ & K & _ & Hlen & _).
  split; [rewrite Hlen; reflexivity|].
  apply K. exists [("region", VStr "B"); ("year", VStr "2023");
                   ("qty", VNum 2); ("amt", VNum 30)].
  split; [right; right; left; reflexivity | reflexivity].
Defined.

(** ** The fields of the records handed on *)

Lemma dims_fold_fields (dims : list string) (parts : list string)
  (k : string) :
  lookup (fold_left
            (fun o di => set o (fst di) (elem_at parts (snd di)))
            (combine dims (seq 0 (List.length dims))) []) k <> None <->
  In k dims.
Proof.
  rewrite (fold_set_as_set_all fst (fun di => elem_at parts (snd di))).
  rewrite lookup_set_all. simpl.
  set (l := map _ (combine dims (seq 0 (List.length dims)))).
  assert (E : map fst (rev l) = rev dims).
  { rewrite map_rev. subst l. rewrite map_map. simpl.
    now rewrite map_fst_combine_seq. }
  destruct (lookup (rev l) k) as [v|] eqn:X.
  - split; [intros _ | discriminate].
    apply in_rev. rewrite <- E. apply lookup_In_keys. congruence.
  - split; [congruence|]. intros Hin. exfalso.
    apply lookup_None_iff in X. apply X. rewrite E. now apply in_rev in Hin.
Qed.

(** A total record has a field for every dimension and for every metric
    of its pass, and no other field: no other column of the rows is
    carried over. *)
Theorem total_record_fields
  (groupbyRows groupbyColumns metrics : list string)
  (transformed : list (obj value)) (rec : obj value) (k : string) :
  (In rec (rowTotalsData groupbyRows metrics transformed) ->
   (lookup rec k <> None <-> In k groupbyRows \/ In k metrics)) /\
  (In rec (colTotalsData groupbyColumns metrics transformed) ->
   (lookup rec k <> None <-> In k groupbyColumns \/ In k metrics)).
Proof.
  assert (G : forall dims m key,
             lookup (totalsItem dims metrics m key) k <> None <->
             In k dims \/ In k metrics).
  { intros dims m key. unfold totalsItem.
    rewrite (lookup_fold_set (fun _ => get m key)).
    destruct (in_dec string_dec k metrics) as [Hin|Hout].
    - split; [auto | discriminate].
    - rewrite dims_fold_fields. tauto. }
  split; intros Hrec; unfold rowTotalsData, colTotalsData, totalsData in Hrec;
    apply in_map_iff in Hrec; destruct Hrec as (key & <- & _); apply G.
Qed.

Lemma total_record_fields_witness :
  let rec := [("region", VStr "A"); ("qty", VNum 8)] in
  In rec (rowTotalsData ["region"] ["qty"]
            [ [("region", VStr "A"); ("year", VStr "2023");
               ("qty", VNum 8)] ]) /\
  lookup rec "qty" <> None /\
  ~ lookup rec "year" <> None.
Proof.
  cbv zeta.
  destruct (total_record_fields ["region"] ["year"] ["qty"]
              [ [("region", VStr "A"); ("year", VStr "2023");
                 ("qty", VNum 8)] ]
              [("region", VStr "A"); ("qty", VNum 8)] "qty") as [Q _].
  destruct (total_record_fields ["region"] ["year"] ["qty"]
              [ [("region", VStr "A"); ("year", VStr "2023");
                 ("qty", VNum 8)] ]
              [("region", VStr "A"); ("qty", VNum 8)] "year") as [Y _].
  assert (Hin : In [("region", VStr "A"); ("qty", VNum 8)]
                  (rowTotalsData ["region"] ["qty"]
                     [ [("region", VStr "A"); ("year", VStr "2023");
                        ("qty", VNum 8)] ])).
  { left. reflexivity. }
  split; [exact Hin|]. split.
  - apply (Q Hin). right. left. reflexivity.
  - intros H. apply (Y Hin) in H.
    destruct H as [[H|[]]|[H|[]]]; discriminate.
Defined.

Lemma sum_step_sets (metrics : list string) (sum item : obj value)
  (k : string) :
  In k metrics \/ lookup sum k <> None ->
  lookup (fold_left
            (fun s metric =>
               set s metric (js_add (js_or (get s metric) (VNum 0))
                               (get item metric)))
            metrics sum) k <> None.
Proof.
  revert sum. induction metrics as [|metric r IH]; intros sum; simpl.
  - tauto.
  - intros H. apply IH. rewrite lookup_set.
    destruct (String.eqb metric k) eqn:E.
    + right. discriminate.
    + apply String.eqb_neq in E. destruct H as [[H|H]|H]; auto.
      all: contradiction.
Qed.

(** The grand-total record has exactly the metrics as fields as soon as
    there is one row-total record, and no field when there is none; it
    never has a dimension field that is not also a metric. *)
Theorem grand_total_fields (metrics : list string)
  (rowTotals_ : list (obj value)) (k : string) :
  lookup (sumOfRowTotals metrics rowTotals_) k <> None <->
  In k metrics /\ rowTotals_ <> [].
Proof.
  split.
  - intros H. split; [now apply sumOfRowTotals_fields in H|].
    intros ->. apply H. reflexivity.
  - intros [Hk Hne]. unfold sumOfRowTotals.
    assert (G : forall recs sum,
               lookup sum k <> None ->
               lookup (fold_left
                         (fun sum item =>
                            fold_left
                              (fun s metric =>
                                 set s metric
                                   (js_add (js_or (get s metric) (VNum 0))
                                      (get item metric)))
                              metrics sum) recs sum) k <> None).
    { induction recs as [|rec r IH]; intros sum Hs; simpl; auto.
      apply IH. apply sum_step_sets. now right. }
    destruct rowTotals_ as [|rec r]; [congruence|]. simpl.
    apply G. apply sum_step_sets. now left.
Qed.

(** A reshaped row has the fields of the input row and, besides, one
    field for every column that has a formatter: a formatted column the
    row lacks is created, holding the formatter applied to the date built
    from undefined. *)
Theorem reshaped_row_fields (L : CoreLib) (formatters : obj DateFormatter)
  (item : obj value) (col : string) :
  (lookup (transformItem L formatters item) col <> None <->
   lookup formatters col <> None \/ lookup item col <> None) /\
  (forall formatter,
     lookup formatters col = Some formatter -> lookup item col = None ->
     lookup (transformItem L formatters item) col
     = Some (VStr (callFormatter L formatter (new_Date L VUndef)))).
Proof.
  assert (E : forall t, lookup (transformItem L formatters item) col = t ->
              t = lookup (transformItem L formatters item) col)
    by (intros; congruence).
  unfold transformItem.
  rewrite (fold_cond_as_filter
             (fun c => negb (existsb (String.eqb c) (keys formatters)))
             (fun t c => set t c (get item c))).
  rewrite (lookup_fold_set (get item)).
  set (g := fun c =>
              match lookup formatters c with
              | Some formatter =>
                  VStr (callFormatter L formatter (new_Date L (get item c)))
              | None => get item c
              end).
  rewrite (fold_left_pointwise _ (fun t c => set t c (g c))).
  2:{ intros t c. unfold g. now destruct (lookup formatters c). }
  rewrite (lookup_fold_set g). clear E.
  assert (F : In col (filter
                        (fun c => negb (existsb (String.eqb c)
                                          (keys formatters)))
                        (keys item)) <->
              lookup item col <> None /\ lookup formatters col = None).
  { rewrite filter_In, In_keys, negb_true_iff.
    destruct (existsb (String.eqb col) (keys formatters)) eqn:X.
    - apply existsb_eqb_In, In_keys in X. intuition congruence.
    - assert (~ In col (keys formatters)).
      { intros Hin. apply existsb_eqb_In in Hin. congruence. }
      rewrite In_keys in H.
      destruct (lookup formatters col); intuition congruence. }
  split.
  - destruct (in_dec string_dec col (filter _ (keys item))) as [Hf|Hf].
    + apply F in Hf. split; [tauto | discriminate].
    + destruct (in_dec string_dec col (keys formatters)) as [Hk|Hk].
      * apply In_keys in Hk. split; [tauto | discriminate].
      * rewrite In_keys in Hk. simpl. split; [congruence|].
        intros [H|H]; [contradiction|].
        exfalso. apply Hf, F. split; auto.
        destruct (lookup formatters col); [exfalso|]; auto.
        apply Hk. discriminate.
  - intros formatter Hfm Hitem.
    destruct (in_dec string_dec col (filter _ (keys item))) as [Hf|Hf].
    + apply F in Hf. destruct Hf. congruence.
    + destruct (in_dec string_dec col (keys formatters)) as [Hk|Hk].
      * unfold g, get. now rewrite Hfm, Hitem.
      * exfalso. apply Hk, In_keys. congruence.
Qed.

Lemma reshaped_row_fields_witness :
  lookup (transformItem sampleCore [("ts", TimeFormatter "%Y")]
            [("qty", VNum 1)]) "ts"
  = Some (VStr "%Y:undefined").
Proof.
  apply (proj2 (reshaped_row_fields sampleCore [("ts", TimeFormatter "%Y")]
                  [("qty", VNum 1)] "ts") (TimeFormatter "%Y"));
    reflexivity.
Defined.

(** ** A metric that arrives as text *)












(** ** Totals and the order of the rows *)








(** ** No dimension on an axis *)




(** ** The metadata list *)

(** The metadata list pairs every field of the verbose map with its
    name, once, in the order of [Object.keys], and holds nothing else. *)
Theorem meta_lists_the_verbose_map (verbose : obj string) :
  map fst (metaOf verbose) = keys verbose /\
  forall field name,
    In (field, name) (metaOf verbose) <-> lookup verbose field = Some name.
Proof.
  unfold metaOf. split.
  - assert (G : forall ks, (forall k, In k ks -> lookup verbose k <> None) ->
                map fst (flat_map
                           (fun field =>
                              match lookup verbose field with
                              | Some name => [(field, name)]
                              | None => []
                              end) ks) = ks).
    { induction ks as [|k r IH]; intros H; simpl; auto.
      rewrite map_app, IH by (intros x Hx; apply H; now right).
      specialize (H k (or_introl eq_refl)).
      destruct (lookup verbose k); [reflexivity | congruence]. }
    apply G. intros k. apply In_keys.
  - intros field name. rewrite in_flat_map. split.
    + intros (k & _ & Hin). destruct (lookup verbose k) eqn:E; [|contradiction].
      destruct Hin as [[= -> ->]|[]]. exact E.
    + intros E. exists field. split.
      * apply In_keys. congruence.
      * rewrite E. now left.
Qed.

(** ** Mounting and tearing down the widget *)

Section MountFacts.

Variable widget : S2DataConfig -> S2Options -> PivotWidget.
Variable props : Props.

Let W : PivotWidget := widget (s2DataConfig props) (s2Options props).

Lemma effect_keeps_the_ref (w : world widget props) :
  container (fst (effect widget props w)) = None <-> container w = None.
Proof.
  rewrite effect_after_fetch. cbn [fst].
  pose proof (fetch_after_try widget props w) as F.
  pose proof (tryBlock_run widget props w) as T.
  cbv zeta in F, T. destruct F as (_ & -> & _). destruct T as (_ & _ & T).
  destruct (container w).
  - destruct (construct _ []) as [d1 [e|s2]].
    + destruct T as (_ & -> & _). split; discriminate.
    + destruct T as (-> & _). split; discriminate.
  - destruct T as (_ & -> & _). tauto.
Qed.

(** When the widget is constructed and rendered without an exception,
    the mount point holds what the widget rendered starting from an empty
    mount point, whatever it held before: the earlier children are gone,
    the widget is constructed once and rendered once, and nothing is
    written to the console. *)
Theorem successful_render_replaces_children (w : world widget props)
  (children d1 d2 : list (Node W)) (s2 : Sheet W) :
  container w = Some children ->
  construct W [] = (d1, inr s2) ->
  render W s2 d1 = (d2, inr tt) ->
  let out := effect widget props w in
  snd out = inr (cleanup widget props) /\
  container (fst out) = Some d2 /\
  console (fst out) = console w /\
  calls (fst out) = calls w ++ [CallConstruct; CallRender] /\
  rejections (fst out) = rejections w.
Proof.
  intros C K R. cbv zeta. rewrite effect_after_fetch. cbn [fst snd].
  pose proof (fetch_after_try widget props w) as F.
  pose proof (tryBlock_run widget props w) as T.
  cbv zeta in F, T.
  destruct F as (_ & Fc & Fk & Fr & Fl).
  destruct T as (Tr & Tl & T).
  unfold W in K, R. rewrite C, K, R in T. simpl in T.
  destruct T as (Tc & Tk & Ts).
  rewrite Fc, Fk, Fr, Fl, Ts, Tc, Tk, Tr, Tl. auto.
Qed.

(** The function the effect returns empties the mount point and does
    nothing else, whatever the effect left there, also after a failed
    render; with a null ref it raises instead, outside any handler, while
    the effect itself had swallowed the same error. *)
Theorem teardown_after_effect (w : world widget props) :
  let mountedWorld := fst (effect widget props w) in
  let down := cleanup widget props mountedWorld in
  (forall children, container w = Some children ->
     snd down = inr tt /\
     container (fst down) = Some [] /\
     console (fst down) = console mountedWorld /\
     calls (fst down) = calls mountedWorld /\
     rejections (fst down) = rejections mountedWorld) /\
  (container w = None ->
   snd (effect widget props w) = inr (cleanup widget props) /\
   snd down = inl TypeError /\ fst down = mountedWorld).
Proof.
  cbv zeta. pose proof (effect_keeps_the_ref w) as E.
  unfold cleanup, clearContainer.
  destruct (container (fst (effect widget props w))) as [left|] eqn:C.
  - split.
    + intros children _. simpl. rewrite removeChildren_nil. auto.
    + intros Hn. apply E in Hn. discriminate.
  - split.
    + intros children Hc. destruct E as [E _]. rewrite E in Hc; auto.
      discriminate.
    + intros _. split; [|auto].
      rewrite effect_after_fetch. reflexivity.
Qed.

End MountFacts.

Lemma successful_render_replaces_children_witness :
  let widget := fun (_ : S2DataConfig) (_ : S2Options) =>
    {| Node := string; Sheet := unit; Error := string;
       construct := fun children => (children ++ ["canvas"], inr tt);
       render := fun _ children => (children ++ ["cells"], inr tt) |} in
  container (fst (effect widget sampleProps
                    (@mounted widget sampleProps ["old canvas"; "old cells"])))
  = Some ["canvas"; "cells"].
Proof.
  cbv zeta.
  apply (successful_render_replaces_children
           (fun (_ : S2DataConfig) (_ : S2Options) =>
              {| Node := string; Sheet := unit; Error := string;
                 construct := fun children => (children ++ ["canvas"], inr tt);
                 render := fun _ children => (children ++ ["cells"], inr tt) |})
           sampleProps _ ["old canvas"; "old cells"] ["canvas"]
           ["canvas"; "cells"] tt); reflexivity.
Defined.

Lemma teardown_after_effect_witness :
  let w := @mounted failingRender sampleProps ["old"] in
  container (fst (cleanup failingRender sampleProps
                    (fst (effect failingRender sampleProps w))))
  = Some [].
Proof.
  cbv zeta.
  apply (teardown_after_effect failingRender sampleProps
           (@mounted failingRender sampleProps ["old"])) with (children := ["old"]).
  reflexivity.
Defined.

(** ** Transposition and the totals options *)

(** The dimensions named for the sub-totals of an axis are the configured
    ones whatever the transpose flag: with the flag set, the row axis of
    the options names the dimensions the layout shows as columns, and the
    column axis those it shows as rows. *)
Theorem subtotal_dimensions_ignore_transpose (L : CoreLib)
  (chartProps : ChartProps L) :
  let fd := formData chartProps in
  let props := transformProps L chartProps in
  let options := s2Options props in
  let layout := c_fields (s2DataConfig props) in
  subTotalsDimensions (totals_row options) = groupbyRows fd /\
  subTotalsDimensions (totals_col options) = groupbyColumns fd /\
  (transposePivot fd = true ->
   subTotalsDimensions (totals_row options) = columns layout /\
   subTotalsDimensions (totals_col options) = rows layout) /\
  (transposePivot fd = false ->
   subTotalsDimensions (totals_row options) = rows layout /\
   subTotalsDimensions (totals_col options) = columns layout).
Proof.
  cbv zeta. unfold s2Options, s2DataConfig, transformProps. simpl.
  split; [reflexivity|]. split; [reflexivity|].
  split; intros ->; split; reflexivity.
Qed.

Lemma subtotal_dimensions_ignore_transpose_witness :
  let props := transformProps sampleCore (sampleChart true ["qty"]) in
  subTotalsDimensions (totals_row (s2Options props))
  = columns (c_fields (s2DataConfig props)) /\
  subTotalsDimensions (totals_col (s2Options props))
  = rows (c_fields (s2DataConfig props)).
Proof.
  cbv zeta.
  destruct (subtotal_dimensions_ignore_transpose sampleCore
              (sampleChart true ["qty"])) as (_ & _ & T & _).
  apply T. reflexivity.
Defined.

(** ** Switching to the chart: formDataOverrides *)

Import ControlPanel.

Lemma includes_In (arr : list string) (col : string) :
  includes arr col = true <-> In col arr.
Proof. apply existsb_eqb_In. Qed.

Lemma filter_complement_perm {A : Type} (f : A -> bool) (l : list A) :
  Permutation (filter (fun x => negb (f x)) l ++ filter f l) l.
Proof.
  induction l as [|x r IH]; simpl; auto.
  destruct (f x); simpl.
  - apply Permutation_sym, Permutation_cons_app. now apply Permutation_sym.
  - now constructor.
Qed.

Lemma columns_left_are_the_rows (rowNames cols : list string) :
  filter (fun col =>
            negb (includes
                    (filter (fun c => negb (includes rowNames c)) cols) col))
    cols
  = filter (includes rowNames) cols.
Proof.
  apply filter_ext_in. intros col Hin.
  destruct (includes rowNames col) eqn:E.
  - apply negb_true_iff.
    destruct (includes (filter _ cols) col) eqn:X; [|reflexivity].
    apply includes_In, filter_In in X. destruct X as [_ X].
    rewrite E in X. discriminate.
  - apply negb_false_iff. apply includes_In, filter_In.
    split; [assumption|]. now rewrite E.
Qed.

Section OverrideFacts.

Variables F M R : Type.
Variable groupbyRowsOf : F -> MaybeArray string.
Variable popAllMetrics : M -> R * M.

(** Switching to this chart splits the standardized columns in two, in
    their order: those not among the row dimensions of the form become
    the column dimensions, and only those among the row dimensions are
    left in the shared controls; no column is lost, none is in both, the
    rest of the form data is kept, and the metrics are the ones popped.
    When the form has no row dimensions every column becomes a column
    dimension and none is left; running the override again on the
    controls it left gives no column dimension. *)
Theorem formDataOverrides_splits_columns (formData : F)
  (sc : StandardizedControls M) :
  let out := formDataOverrides F M R groupbyRowsOf popAllMetrics formData sc in
  let rowNames := ensureIsArray (groupbyRowsOf formData) in
  let groupbyColumns := ov_groupbyColumns (fst out) in
  let left := sc_columns (snd out) in
  groupbyColumns
  = filter (fun col => negb (includes rowNames col)) (sc_columns sc) /\
  left = filter (includes rowNames) (sc_columns sc) /\
  Permutation (groupbyColumns ++ left) (sc_columns sc) /\
  (forall col, In col groupbyColumns -> ~ In col rowNames /\ ~ In col left) /\
  (forall col, In col left -> In col rowNames) /\
  ov_spread (fst out) = formData /\
  ov_metrics (fst out) = fst (popAllMetrics (sc_metrics sc)) /\
  sc_metrics (snd out) = snd (popAllMetrics (sc_metrics sc)) /\
  (groupbyRowsOf formData = Missing ->
   groupbyColumns = sc_columns sc /\ left = []) /\
  ov_groupbyColumns
    (fst (formDataOverrides F M R groupbyRowsOf popAllMetrics formData
            (snd out))) = [].
Proof.
  cbv zeta. unfold formDataOverrides. cbn [fst snd ov_groupbyColumns
    ov_spread ov_metrics sc_columns sc_metrics].
  rewrite columns_left_are_the_rows.
  set (rowNames := ensureIsArray (groupbyRowsOf formData)).
  split; [reflexivity|]. split; [reflexivity|].
  split; [apply filter_complement_perm|].
  split.
  { intros col Hin. apply filter_In in Hin. destruct Hin as [_ Hin].
    apply negb_true_iff in Hin. split.
    - intros H. apply includes_In in H. congruence.
    - intros H. apply filter_In in H. destruct H as [_ H]. congruence. }
  split.
  { intros col Hin. apply filter_In in Hin. destruct Hin as [_ Hin].
    now apply includes_In. }
  split; [reflexivity|]. split; [reflexivity|]. split; [reflexivity|].
  split.
  { intros Hm. unfold rowNames. rewrite Hm. simpl. split.
    - induction (sc_columns sc) as [|c r IH]; simpl; congruence.
    - induction (sc_columns sc) as [|c r IH]; simpl; auto. }
  induction (sc_columns sc) as [|c r IH]; simpl; auto.
  destruct (includes rowNames c) eqn:E; simpl; auto.
  now rewrite E.
Qed.

End OverrideFacts.

Lemma formDataOverrides_splits_columns_witness :
  let out :=
    formDataOverrides (MaybeArray string) (list string) (list string)
      (fun rowsOfForm => rowsOfForm) (fun metricsLeft => (metricsLeft, []))
      Missing
      {| sc_columns := ["region"; "year"]; sc_metrics := ["qty"] |} in
  ov_groupbyColumns (fst out) = ["region"; "year"] /\
  sc_columns (snd out) = [].
Proof.
  cbv zeta.
  apply (formDataOverrides_splits_columns (MaybeArray string) (list string)
           (list string) (fun rowsOfForm => rowsOfForm)
           (fun metricsLeft => (metricsLeft, [])) Missing
           {| sc_columns := ["region"; "year"]; sc_metrics := ["qty"] |}).
  reflexivity.
Defined.

(** ** Which columns get a formatter *)

(** The reducer records a formatter for a column exactly when the column
    is flagged temporal and a date format is configured (the smart format
    or a non-empty format string): a column that is not temporal is never
    formatted, and under the smart format every temporal column is. *)
Theorem formatters_only_for_temporal_columns (L : CoreLib)
  (dateFormat granularity : option string) (colnames : list string)
  (coltypes : list GenericDataType) (data : list (obj value))
  (col : string) :
  lookup (dateFormatters L dateFormat granularity colnames coltypes data) col
  <> None <->
  flagged_temporal colnames coltypes col /\
  (dateFormat = Some (smartDateFormatter_id L)
   \/ truthy_string dateFormat = true).
Proof.
  rewrite dateFormatters_lookup.
  destruct (in_dec string_dec col (temporalColnames colnames coltypes))
    as [Hin|Hout].
  - apply temporalColnames_In in Hin. unfold selectFormatter.
    destruct dateFormat as [f|]; simpl.
    + destruct (String.eqb f (smartDateFormatter_id L)) eqn:E.
      * apply String.eqb_eq in E. subst f. split; [auto|]. intros _.
        destruct granularity as [g|]; simpl.
        -- destruct (negb (String.eqb g "")); [discriminate|].
           destruct (isNumeric col data); discriminate.
        -- destruct (isNumeric col data); discriminate.
      * destruct (negb (String.eqb f "")) eqn:T.
        -- split; [auto | discriminate].
        -- apply String.eqb_neq in E. split; [congruence|].
           intros [_ [[= H]|H]]; [congruence | discriminate].
    + split; [congruence|]. intros [_ [H|H]]; discriminate.
  - rewrite <- temporalColnames_In. split; [congruence | tauto].
Qed.

Lemma formatters_only_for_temporal_columns_witness :
  lookup (dateFormatters sampleCore (Some "%Y") None ["ts"; "qty"]
            [TEMPORAL; NUMERIC] []) "ts" <> None.
Proof.
  apply (formatters_only_for_temporal_columns sampleCore (Some "%Y") None
           ["ts"; "qty"] [TEMPORAL; NUMERIC] [] "ts").
  split.
  - exists 0%nat. split; reflexivity.
  - right. reflexivity.
Defined.

(** ** Examples for the general totals *)


